(** * The Go client generator: package bootstrap and section rendering

    A shallow embedding of [codegen/generator/go/generator.go]:
    [Generate], [bootstrapPkg], [loadPackage] and [baseModuleSource],
    together with the library operations they call
    ([strcase.ToKebab], [strcase.ToCamel], the [modfile] requirement
    updates, the in-memory file system and the layered overlay).

    Go strings are byte sequences; they are modelled by [string], whose
    characters are the 8-bit [ascii] values. *)

From Stdlib Require Import Ascii String NArith.
From stdpp Require Import base option list gmap strings pretty sorting.

Local Open Scope string_scope.

(** ** Byte classes and literals *)

Definition code (c : ascii) : N := N_of_ascii c.

Definition between (lo hi : N) (c : ascii) : bool :=
  (lo <=? code c)%N && (code c <=? hi)%N.

Definition isCap : ascii -> bool := between 65 90.
Definition isLow : ascii -> bool := between 97 122.
Definition isNum : ascii -> bool := between 48 57.

(** [v += 'A'; v -= 'a'] and [v += 'a'; v -= 'A'] on a byte, which
    wraps around at 256. *)
Definition upper (c : ascii) : ascii := ascii_of_N ((code c + 65 + 256 - 97) mod 256).
Definition lower (c : ascii) : ascii := ascii_of_N ((code c + 97 + 256 - 65) mod 256).

Definition chr (n : N) : ascii := ascii_of_N n.
Definition str1 (c : ascii) : string := String c EmptyString.

Definition NL : string := str1 (chr 10).
Definition TAB : string := str1 (chr 9).
Definition DQ : string := str1 (chr 34).

(** ** [strings.TrimSpace] and [strings.Join] *)

Module strings.

(** The six ASCII white-space bytes of [asciiSpace]. *)
Definition asciiSpace (c : ascii) : bool :=
  between 9 13 c || (code c =? 32)%N.

(** [unicode.IsSpace] on the runes above U+007F, by their UTF-8
    encodings: U+0085 and U+00A0 take two bytes, the others three. *)
Definition space2 (a b : ascii) : bool :=
  (code a =? 194)%N && ((code b =? 133)%N || (code b =? 160)%N).

Definition space3 (a b c : ascii) : bool :=
  match code a, code b, code c with
  | 225%N, 154%N, 128%N => true                       (* U+1680 *)
  | 226%N, 128%N, z =>
      (128 <=? z)%N && (z <=? 138)%N                  (* U+2000 .. U+200A *)
      || (z =? 168)%N || (z =? 169)%N || (z =? 175)%N (* U+2028 U+2029 U+202F *)
  | 226%N, 129%N, 159%N => true                       (* U+205F *)
  | 227%N, 128%N, 128%N => true                       (* U+3000 *)
  | _, _, _ => false
  end.

(** Drop leading white-space runes. *)
Fixpoint TrimLeftSpace (s : string) : string :=
  match s with
  | EmptyString => EmptyString
  | String a r1 =>
      if asciiSpace a then TrimLeftSpace r1
      else match r1 with
           | String b r2 =>
               if space2 a b then TrimLeftSpace r2
               else match r2 with
                    | String c r3 => if space3 a b c then TrimLeftSpace r3 else s
                    | EmptyString => s
                    end
           | EmptyString => s
           end
  end.

(** Drop trailing white-space runes; the argument is the reversed
    byte list, so a rune's bytes arrive last byte first. *)
Fixpoint TrimLeftSpaceRev (s : list ascii) : list ascii :=
  match s with
  | [] => []
  | a :: r1 =>
      if asciiSpace a then TrimLeftSpaceRev r1
      else match r1 with
           | b :: r2 =>
               if space2 b a then TrimLeftSpaceRev r2
               else match r2 with
                    | c :: r3 => if space3 c b a then TrimLeftSpaceRev r3 else s
                    | [] => s
                    end
           | [] => s
           end
  end.

Definition TrimRightSpace (s : string) : string :=
  string_of_list_ascii (rev (TrimLeftSpaceRev (rev (list_ascii_of_string s)))).

Definition TrimSpace (s : string) : string :=
  TrimRightSpace (TrimLeftSpace s).

(** [strings.Join(elems, sep)]. *)
Fixpoint Join (elems : list string) (sep : string) : string :=
  match elems with
  | [] => EmptyString
  | [a] => a
  | a :: rest => a ++ sep ++ Join rest sep
  end.

End strings.

(** ** [github.com/iancoleman/strcase] (v0.3.0) *)

Module strcase.

Definition isSep (v : ascii) : bool :=
  (code v =? 32)%N || (code v =? 95)%N || (code v =? 45)%N || (code v =? 46)%N.

(** [strings.ContainsAny(string(b), ignore)] for a byte [b]. *)
Definition containsAny (b : ascii) (ignore : string) : bool :=
  existsb (Ascii.eqb b) (list_ascii_of_string ignore).

(** The loop of [ToScreamingDelimited]: [prev] is [s[i-1]] when
    [i > 0], the head of [s] is [s[i]], the next byte [s[i+1]]. *)
Fixpoint delimitedLoop (delimiter : ascii) (ignore : string) (screaming : bool)
    (prev : option ascii) (s : string) : string :=
  match s with
  | EmptyString => EmptyString
  | String c rest =>
      let vIsCap := isCap c in
      let vIsLow := isLow c in
      let v := if vIsLow && screaming then upper c
               else if vIsCap && negb screaming then lower c
               else c in
      let plain :=
        if isSep v && negb (containsAny v ignore) then str1 delimiter else str1 v in
      let tail := delimitedLoop delimiter ignore screaming (Some c) rest in
      match rest with
      | String next _ =>
          let vIsNum := isNum v in
          let nextIsCap := isCap next in
          let nextIsLow := isLow next in
          let nextIsNum := isNum next in
          if (vIsCap && (nextIsLow || nextIsNum))
             || (vIsLow && (nextIsCap || nextIsNum))
             || (vIsNum && (nextIsCap || nextIsLow))
          then
            let prevIgnore :=
              match prev with
              | Some p => negb (String.eqb ignore EmptyString) && containsAny p ignore
              | None => false
              end in
            if negb prevIgnore then
              let prevIsCap := match prev with Some p => isCap p | None => false end in
              (if vIsCap && nextIsLow && prevIsCap then str1 delimiter else EmptyString)
              ++ str1 v
              ++ (if vIsLow || vIsNum || nextIsNum then str1 delimiter else EmptyString)
              ++ tail
            else plain ++ tail
          else plain ++ tail
      | EmptyString => plain ++ tail
      end
  end.

Definition ToScreamingDelimited (s : string) (delimiter : ascii) (ignore : string)
    (screaming : bool) : string :=
  delimitedLoop delimiter ignore screaming None (strings.TrimSpace s).

Definition ToDelimited (s : string) (delimiter : ascii) : string :=
  ToScreamingDelimited s delimiter EmptyString false.

Definition ToKebab (s : string) : string := ToDelimited s (chr 45).

(** The acronym table [uppercaseAcronym]; nothing in the generator
    calls [ConfigureAcronym], so it is empty. *)
Definition uppercaseAcronym : list (string * string) := [].

Fixpoint loadAcronym (tbl : list (string * string)) (s : string) : option string :=
  match tbl with
  | [] => None
  | (k, a) :: tbl' => if String.eqb k s then Some a else loadAcronym tbl' s
  end.

(** The loop of [toCamelInitCase]; [first] is [i == 0]. *)
Fixpoint camelLoop (hasAcronym first capNext prevIsCap : bool) (s : string) : string :=
  match s with
  | EmptyString => EmptyString
  | String c rest =>
      let vIsCap := isCap c in
      let vIsLow := isLow c in
      let v := if capNext then (if vIsLow then upper c else c)
               else if first then (if vIsCap then lower c else c)
               else if prevIsCap && vIsCap && negb hasAcronym then lower c
               else c in
      if vIsCap || vIsLow then
        String v (camelLoop hasAcronym false false vIsCap rest)
      else if isNum v then
        String v (camelLoop hasAcronym false true vIsCap rest)
      else camelLoop hasAcronym false (isSep v) vIsCap rest
  end.

Definition toCamelInitCase (s : string) (initCase : bool) : string :=
  let s := strings.TrimSpace s in
  if String.eqb s EmptyString then s
  else
    let (s, hasAcronym) :=
      match loadAcronym uppercaseAcronym s with
      | Some a => (a, true)
      | None => (s, false)
      end in
    camelLoop hasAcronym true initCase false s.

Definition ToCamel (s : string) : string := toCamelInitCase s true.

End strcase.

(** ** [golang.org/x/mod/modfile] *)

Module modfile.

(** A [require] line: [Mod.Path], [Mod.Version] and the
    [// indirect] mark. *)
Record Req : Type := mkReq {
  Path : string;
  Version : string;
  Indirect : bool
}.

#[global] Instance Req_eq_dec : EqDecision Req.
Proof. solve_decision. Defined.

(** A parsed [go.mod], by its lines: the [module] statement when
    there is one ([f.Module] is nil otherwise), the [require] lines in
    file order, and the remaining directives ([go], [exclude],
    [replace], [retract]), which nothing here edits.  A line that an
    update removes from the syntax tree leaves the list. *)
Record File : Type := mkFile {
  Module : option string;
  Require_ : list Req;
  Directives : list string
}.

(** [new(modfile.File)]. *)
Definition empty : File := mkFile None [] [].

Definition setReqs (f : File) (rs : list Req) : File :=
  mkFile (Module f) rs (Directives f).

Definition setVersion (r : Req) (vers : string) : Req :=
  mkReq (Path r) vers (Indirect r).

(** [AddModuleStmt]. *)
Definition AddModuleStmt (f : File) (path : string) : File :=
  mkFile (Some path) (Require_ f) (Directives f).

(** [AddNewRequire]: a new line after the existing ones. *)
Definition AddNewRequire (f : File) (path vers : string) (indirect : bool) : File :=
  setReqs f (Require_ f ++ [mkReq path vers indirect])%list.

(** The loop of [AddRequire] over [f.Require]: the first line for
    [path] gets version [vers], every later line for [path] is
    removed; the flag [need] is returned. *)
Fixpoint addRequireLoop (path vers : string) (need : bool) (rs : list Req)
    : list Req * bool :=
  match rs with
  | [] => ([], need)
  | r :: rs' =>
      if String.eqb (Path r) path then
        if need then
          let (out, n) := addRequireLoop path vers false rs' in
          (setVersion r vers :: out, n)
        else addRequireLoop path vers false rs'
      else
        let (out, n) := addRequireLoop path vers need rs' in
        (r :: out, n)
  end.

Definition AddRequire (f : File) (path vers : string) : File :=
  let (rs, need) := addRequireLoop path vers true (Require_ f) in
  if need then AddNewRequire (setReqs f rs) path vers false
  else setReqs f rs.

(** [SetRequire] first collects [need], a map from path to version
    and indirect mark, and panics on two versions for one path. *)
Fixpoint collectNeed (req : list Req) (need : gmap string (string * bool))
    : option (gmap string (string * bool)) :=
  match req with
  | [] => Some need
  | r :: req' =>
      match need !! Path r with
      | Some (v, _) =>
          if String.eqb v (Version r)
          then collectNeed req' (<[Path r := (Version r, Indirect r)]> need)
          else None
      | None => collectNeed req' (<[Path r := (Version r, Indirect r)]> need)
      end
  end.

(** Its second loop keeps, of the existing lines, the first for each
    needed path, with the needed version and mark. *)
Fixpoint keepNeeded (rs : list Req) (need : gmap string (string * bool))
    : list Req * gmap string (string * bool) :=
  match rs with
  | [] => ([], need)
  | r :: rs' =>
      match need !! Path r with
      | Some (v, ind) =>
          let (out, need') := keepNeeded rs' (delete (Path r) need) in
          (mkReq (Path r) v ind :: out, need')
      | None => keepNeeded rs' need
      end
  end.

(** [lineLess] on the tokens of two [require] lines. *)
Definition lineLe (a b : Req) : Prop :=
  if String.eqb (Path a) (Path b)
  then String.leb (Version a) (Version b) = true
  else String.leb (Path a) (Path b) = true.

#[global] Instance lineLe_dec : RelDecision lineLe.
Proof. intros a b. unfold lineLe. destruct (String.eqb _ _); apply _. Defined.

(** [SetRequire]: the lines that are still needed are added (the map
    is ranged over in no fixed order) and [SortBlocks] orders the
    block.  [None] is the panic. *)
Definition SetRequire (f : File) (req : list Req) : option File :=
  match collectNeed req ∅ with
  | None => None
  | Some need =>
      let (kept, need') := keepNeeded (Require_ f) need in
      let added := (fun kv : string * (string * bool) =>
                      mkReq kv.1 kv.2.1 kv.2.2) <$> map_to_list need' in
      Some (setReqs f (merge_sort lineLe (kept ++ added)))
  end.

(** No path is required at two versions: what [SetRequire] insists
    on, and what makes "the version the baseline gives a path"
    well defined. *)
Definition oneVersionPerPath (rs : list Req) : bool :=
  forallb (fun a =>
    forallb (fun b =>
      implb (String.eqb (Path a) (Path b)) (String.eqb (Version a) (Version b))) rs) rs.

(** The requirements of [rs] for [path], and those for no path of
    [paths]. *)
Definition linesFor (path : string) (rs : list Req) : list Req :=
  filter (fun r => Path r = path) rs.

Definition linesOutside (paths : list string) (rs : list Req) : list Req :=
  filter (fun r => Path r ∉ paths) rs.

End modfile.

(** ** Results, the in-memory file system and the workspace *)

Definition error : Type := string.

(** What a Go call ends in: its value, a returned [error], or a
    panic (a nil dereference, a library panic). *)
Inductive result (A : Type) : Type :=
| Ok (a : A)
| Err (e : error)
| Panic (msg : string).
Arguments Ok {A} a.
Arguments Err {A} e.
Arguments Panic {A} msg.

#[global] Instance result_ret : MRet result := fun A a => Ok a.
#[global] Instance result_bind : MBind result := fun A B f r =>
  match r with
  | Ok a => f a
  | Err e => Err e
  | Panic m => Panic m
  end.

(** A library call returns Go's pair of a value and an [error]:
    [inr] is the value (with a nil error), [inl] the error. *)
Definition ofSum {A} (r : error + A) : result A :=
  match r with
  | inr a => Ok a
  | inl e => Err e
  end.

(** [fmt.Errorf(prefix + "%w", err)]. *)
Definition wrapErr {A} (prefix : string) (r : result A) : result A :=
  match r with
  | Err e => Err (prefix ++ e)
  | other => other
  end.

Module packages.

(** A loaded [packages.Package]: its name, its import path, the path
    of its module ([Module] is nil for a package outside any module)
    and the names it declares, which stand for the type information
    ([NeedTypes], [NeedSyntax], [NeedTypesInfo]). *)
Record Package : Type := mkPackage {
  Name : string;
  PkgPath : string;
  Module : option string;
  Decls : list string
}.

End packages.

(** The real workspace as the generator observes it: the files on
    disk, what [packages.Load] answers for a directory, and what
    [imports.Process] answers for a file name and a source text (it
    reads the directory of that file and the module environment). *)
Record World : Type := mkWorld {
  disk : gmap string string;
  packages_Load : string -> error + list packages.Package;
  imports_Process : string -> string -> error + string
}.

(** The machine state: the [memfs.FS] behind the pointer [mfs], and
    the world. *)
Record State : Type := mkState {
  mfs : gmap string string;
  world : World
}.

Definition M (A : Type) : Type := State -> result A * State.

#[global] Instance M_ret : MRet M := fun A a st => (Ok a, st).
#[global] Instance M_bind : MBind M := fun A B f m st =>
  match m st with
  | (Ok a, st') => f a st'
  | (Err e, st') => (Err e, st')
  | (Panic msg, st') => (Panic msg, st')
  end.

Definition lift {A} (r : result A) : M A := fun st => (r, st).

(** A call whose [error] the caller inspects instead of returning. *)
Definition attempt {A} (m : M A) : M (error + A) := fun st =>
  match m st with
  | (Ok a, st') => (Ok (inr a), st')
  | (Err e, st') => (Ok (inl e), st')
  | (Panic msg, st') => (Panic msg, st')
  end.

Definition wrapM {A} (prefix : string) (m : M A) : M A := fun st =>
  let (r, st') := m st in (wrapErr prefix r, st').

(** A call that reads the world and leaves it as it is. *)
Definition observe {A} (f : World -> result A) : M A := fun st => (f (world st), st).

(** [memfs.New()]. *)
Definition memfs_New : M unit := fun st => (Ok tt, mkState ∅ (world st)).

(** The file system behind [mfs], as [layerfs.New] receives it. *)
Definition readMfs : M (gmap string string) := fun st => (Ok (mfs st), st).

Fixpoint hasSlash (s : string) : bool :=
  match s with
  | EmptyString => false
  | String c r => (code c =? 47)%N || hasSlash r
  end.

(** [mfs.WriteFile(name, data, 0600)].  No directory is ever made in
    [mfs], so a file lands in its root; a name with a directory part
    (or no name) is refused. *)
Definition WriteFile (name data : string) : M unit := fun st =>
  if hasSlash name || String.eqb name EmptyString
  then (Err ("invalid path: " ++ name), st)
  else (Ok tt, mkState (<[name := data]> (mfs st)) (world st)).

(** [os.Stat(path)]: the error, if any. *)
Definition os_Stat (path : string) : M (option error) := fun st =>
  match disk (world st) !! path with
  | Some _ => (Ok None, st)
  | None => (Ok (Some ("stat " ++ path ++ ": no such file or directory")), st)
  end.

(** [os.ReadFile(path)]. *)
Definition os_ReadFile (path : string) : M (error + string) := fun st =>
  match disk (world st) !! path with
  | Some data => (Ok (inr data), st)
  | None => (Ok (inl ("open " ++ path ++ ": no such file or directory")), st)
  end.

(** ** The schema and its visitor *)

Module introspection.

(** Modelled from the spec: the introspection package is not among
    the sources.  A type is of one of four kinds (Scalar, Object,
    Enum, Input) and carries a name and a documentation string; its
    kind-specific members are read by the templates only. *)
Inductive TypeKind : Type := SCALAR | OBJECT | ENUM | INPUT_OBJECT.

#[global] Instance TypeKind_eq_dec : EqDecision TypeKind.
Proof. solve_decision. Defined.

Record Type_ : Type := mkType {
  Kind : TypeKind;
  Name : string;
  Description : string
}.

Record Schema : Type := mkSchema { Types : list Type_ }.

Definition ofKind (k : TypeKind) (s : Schema) : list Type_ :=
  filter (fun t => Kind t = k) (Types s).

(** The handlers are closures over the caller's variables; [S] is
    the type of what they update. *)
Record VisitHandlers (S : Type) : Type := mkHandlers {
  Scalar : Type_ -> S -> result S;
  Object : Type_ -> S -> result S;
  Enum : Type_ -> S -> result S;
  Input : Type_ -> S -> result S
}.
Arguments mkHandlers {S}.
Arguments Scalar {S}.
Arguments Object {S}.
Arguments Enum {S}.
Arguments Input {S}.

Fixpoint visitAll {S} (h : Type_ -> S -> result S) (ts : list Type_) (s : S)
    : result S :=
  match ts with
  | [] => Ok s
  | t :: ts' => s' ← h t s; visitAll h ts' s'
  end.

(** Modelled from the spec: [Schema.Visit] of the introspection
    package is not among the sources.  It hands each type to the
    handler of its kind exactly once, grouped by kind (Scalars,
    then Objects, then Enums, then Inputs), each group in the
    schema's own order, and stops at the first handler error. *)
Definition Visit {S} (schema : Schema) (h : VisitHandlers S) (s : S) : result S :=
  s1 ← visitAll (Scalar h) (ofKind SCALAR schema) s;
  s2 ← visitAll (Object h) (ofKind OBJECT schema) s1;
  s3 ← visitAll (Enum h) (ofKind ENUM schema) s2;
  visitAll (Input h) (ofKind INPUT_OBJECT schema) s3.

End introspection.

(** ** Configuration, libraries and templates *)

Module generator.

Record Config : Type := mkConfig {
  ModuleName : string;
  SourceDir : string;
  OutputDir : string
}.

(** [layerfs.New(layers...)] is kept as its list of layers. *)
Record GeneratedState : Type := mkGenerated {
  Overlay : list (gmap string string);
  PostCommands : list (list string);
  NeedRegenerate : bool
}.

End generator.

(** [layerfs]: a file is read from the first layer that has it. *)
Fixpoint layerfs_ReadFile (layers : list (gmap string string)) (name : string)
    : option string :=
  match layers with
  | [] => None
  | l :: ls =>
      match l !! name with
      | Some data => Some data
      | None => layerfs_ReadFile ls name
      end
  end.

Record PackageInfo : Type := mkInfo {
  PackageName : string;
  ModulePath : string
}.

(** The library calls whose inside is not modelled. *)
Class GoLibs : Type := {
  modfile_Parse : string -> string -> error + modfile.File;
  modfile_Format : modfile.File -> error + string;
  format_Source : string -> error + string;
  filepath_Join : string -> string -> string
}.

(** The files that [dagger.io/dagger] embeds. *)
Class Embedded : Type := {
  GoMod : string;
  GoSum : string;
  QueryBuilder : gmap string string
}.

(** What [templates.GoTemplateFuncs] closes over. *)
Record Funcs : Type := mkFuncs {
  f_schema : introspection.Schema;
  f_moduleName : string;
  f_pkg : option packages.Package
}.

(** The section templates of [codegen/generator/go/templates], each
    with the data it is executed on. *)
Class Templates : Type := {
  tmpl_Header : Funcs -> PackageInfo * introspection.Schema -> error + string;
  tmpl_Scalar : Funcs -> introspection.Type_ -> error + string;
  tmpl_Object : Funcs -> introspection.Type_ * bool -> error + string;
  tmpl_Enum : Funcs -> introspection.Type_ -> error + string;
  tmpl_Input : Funcs -> introspection.Type_ -> error + string;
  tmpl_Module : Funcs -> introspection.Schema * string -> error + string
}.

(** ** The generator *)

Definition ClientGenFile : string := "dagger.gen.go".
Definition StarterTemplateFile : string := "main.go".

Definition panic {A} (msg : string) : M A := fun st => (Panic msg, st).

Definition nilDeref : string :=
  "runtime error: invalid memory address or nil pointer dereference".

(** [bytes.Contains]. *)
Fixpoint isPrefix (p s : string) : bool :=
  match p, s with
  | EmptyString, _ => true
  | String a p', String b s' => Ascii.eqb a b && isPrefix p' s'
  | String _ _, EmptyString => false
  end.

Fixpoint contains (s sub : string) : bool :=
  isPrefix sub s ||
  match s with
  | EmptyString => false
  | String _ s' => contains s' sub
  end.

Section Generator.

Context `{!GoLibs, !Embedded, !Templates}.

Import generator.

Definition loadPackage (dir : string) : M packages.Package := fun st =>
  match packages_Load (world st) dir with
  | inl e => (Err e, st)
  | inr pkgs =>
      match pkgs with
      | [] => (Err ("no packages found in " ++ dir), st)
      | [pkg] => (Ok pkg, st)
      | _ => (Err ("expected 1 package, got " ++ pretty (length pkgs)), st)
      end
  end.

Definition baseModuleSource (g : Config) : string :=
  let moduleStructName := strcase.ToCamel (ModuleName g) in
  "package main" ++ NL
  ++ NL
  ++ "import (" ++ NL
  ++ TAB ++ DQ ++ "context" ++ DQ ++ NL
  ++ ")" ++ NL
  ++ NL
  ++ "type " ++ moduleStructName ++ " struct {}" ++ NL
  ++ NL
  ++ "func (m *" ++ moduleStructName
  ++ ") MyFunction(ctx context.Context, stringArg string) (" ++ "*Container, error) {" ++ NL
  ++ TAB ++ "return dag.Container().From(" ++ DQ ++ "alpine:latest" ++ DQ
  ++ ").WithExec([]string{" ++ DQ ++ "echo" ++ DQ ++ ", stringArg}).Sync(ctx)" ++ NL
  ++ "}" ++ NL.

(** The [range sdkMod.Require] loop over [newMod.AddRequire]. *)
Definition addBaseline (cur : modfile.File) (baseline : list modfile.Req) : modfile.File :=
  foldl (fun f req => modfile.AddRequire f (modfile.Path req) (modfile.Version req))
        cur baseline.

Definition bootstrapPkg (g : Config) : M (PackageInfo * bool) :=
  let outDir := OutputDir g in
  probe ← attempt (loadPackage outDir);
  packageName ←
    match probe with
    | inr modPkg =>
        (* the debug labels read [modPkg.Module.Path] *)
        match packages.Module modPkg with
        | Some _ => mret (packages.Name modPkg)
        | None => panic nilDeref
        end
    | inl _ => mret "main"
    end;
  statErr ← os_Stat (filepath_Join outDir StarterTemplateFile);
  needsRegen ←
    match statErr with
    | Some _ => WriteFile StarterTemplateFile (baseModuleSource g);; mret true
    | None => mret false
    end;
  sdkMod ← lift (wrapErr "parse embedded go.mod: " (ofSum (modfile_Parse "go.mod" GoMod)));
  content ← os_ReadFile (filepath_Join outDir "go.mod");
  '(newMod, modulePath) ←
    match content with
    | inr content =>
        currentMod ← lift (wrapErr "parse go.mod: " (ofSum (modfile_Parse "go.mod" content)));
        let newMod := addBaseline currentMod (modfile.Require_ sdkMod) in
        match modfile.Module currentMod with
        | Some path => mret (newMod, path)
        | None => panic nilDeref
        end
    | inl _ =>
        let newModName := strcase.ToKebab (ModuleName g) in
        let newMod := modfile.AddModuleStmt modfile.empty newModName in
        match modfile.SetRequire newMod (modfile.Require_ sdkMod) with
        | Some newMod => mret (newMod, newModName)
        | None => panic "SetRequire called with conflicting versions"
        end
    end;
  modBody ← lift (wrapErr "format go.mod: " (ofSum (modfile_Format newMod)));
  WriteFile "go.mod" modBody;;
  WriteFile "go.sum" GoSum;;
  mret (mkInfo packageName modulePath, needsRegen).

(** Modelled from the spec: [generator.InstallGitAttributes] is not
    among the sources.  It layers a marker file that flags the
    generated file as machine-generated; a marker file of the user's
    is kept, and only the generated file's entry is made present. *)
Definition InstallGitAttributes (file outDir : string) : M unit :=
  let entry := "/" ++ file ++ " linguist-generated=true" ++ NL in
  existing ← os_ReadFile (filepath_Join outDir ".gitattributes");
  match existing with
  | inr old =>
      if contains old entry then mret tt
      else WriteFile ".gitattributes" (old ++ entry)
  | inl _ => WriteFile ".gitattributes" entry
  end.

Definition GoTemplateFuncs (schema : introspection.Schema) (moduleName : string)
    (pkg : option packages.Package) : Funcs :=
  mkFuncs schema moduleName pkg.

Definition isModuleCode (g : Config) : bool :=
  negb (String.eqb (ModuleName g) EmptyString).

(** A handler body: execute the template, append its output to
    [render]. *)
Definition appendOut (out : error + string) (render : list string)
    : result (list string) :=
  o ← ofSum out; mret (render ++ [o])%list.

(** Lines 59 to 125 of [Generate]: the slice [render]. *)
Definition renderSections (g : Config) (schema : introspection.Schema)
    (funcs : Funcs) (pkgInfo : PackageInfo) : result (list string) :=
  let render := [] in
  header ← ofSum (tmpl_Header funcs (pkgInfo, schema));
  let render := (render ++ [header])%list in
  render ← introspection.Visit schema
    (introspection.mkHandlers
       (fun t render => appendOut (tmpl_Scalar funcs t) render)
       (fun t render => appendOut (tmpl_Object funcs (t, isModuleCode g)) render)
       (fun t render => appendOut (tmpl_Enum funcs t) render)
       (fun t render => appendOut (tmpl_Input funcs t) render))
    render;
  if isModuleCode g then
    moduleMain ← ofSum (tmpl_Module funcs (schema, SourceDir g));
    mret (render ++ [moduleMain])%list
  else mret render.

(** [fmt.Errorf("error formatting generated code: %w\nsource:\n%s", err, source)]. *)
Definition wrapFormat {A} (source : string) (r : error + A) : result A :=
  match r with
  | inl e => Err ("error formatting generated code: " ++ e ++ NL ++ "source:" ++ NL ++ source)
  | inr a => Ok a
  end.

(** Lines 127 to 135: join, [format.Source], [imports.Process]. *)
Definition joinSections (render : list string) : string :=
  strings.Join render NL.

Definition postProcess (g : Config) (w : World) (render : list string) : result string :=
  let source := joinSections render in
  formatted ← wrapFormat source (format_Source source);
  wrapFormat source (imports_Process w (filepath_Join (SourceDir g) "dummy.go") formatted).

Definition sourcePkg (probe : error + packages.Package) : option packages.Package :=
  match probe with
  | inr pkg => Some pkg
  | inl _ => None
  end.

(** The package that [Generate] hands to the templates: the one
    found in [dir], or nil. *)
Definition loadedPkg (dir : string) (st : State) : option packages.Package :=
  sourcePkg (match (loadPackage dir st).1 with
             | Ok pkg => inr pkg
             | Err e => inl e
             | Panic msg => inl msg
             end).

(** The workspace identity that a run in state [st] computes. *)
Definition identityOf (g : Config) (st : State) : result PackageInfo :=
  match (bootstrapPkg g (mkState ∅ (world st))).1 with
  | Ok (info, _) => Ok info
  | Err e => Err e
  | Panic msg => Panic msg
  end.

Definition Generate (g : Config) (schema : introspection.Schema) : M GeneratedState :=
  (* generator.SetSchema(schema): the templates get the schema in [funcs] *)
  memfs_New;;
  '(pkgInfo, needSync) ← wrapM "bootstrap package: " (bootstrapPkg g);
  probe ← attempt (loadPackage (SourceDir g));
  let pkg := sourcePkg probe in
  let funcs := GoTemplateFuncs schema (ModuleName g) pkg in
  render ← lift (renderSections g schema funcs pkgInfo);
  formatted ← observe (fun w => postProcess g w render);
  WriteFile ClientGenFile formatted;;
  InstallGitAttributes ClientGenFile (OutputDir g);;
  layer ← readMfs;
  mret (mkGenerated [layer; QueryBuilder] [["go"; "mod"; "tidy"]] needSync).

End Generator.

(** ** The section order in the spec's words *)

(** Following the spec's words: one section per type of a kind, in
    the order given. *)
Fixpoint sectionsOf (tmpl : introspection.Type_ → error + string)
    (ts : list introspection.Type_) : result (list string) :=
  match ts with
  | [] => Ok []
  | t :: ts' => o ← ofSum (tmpl t); os ← sectionsOf tmpl ts'; Ok (o :: os)
  end.

Section RenderOrder.

Context `{!Templates}.

Import generator introspection.

(** Following the spec's words: header, Scalars, Objects, Enums,
    Inputs, and the module entry point when a module name is
    configured. *)
Definition renderInOrder (g : Config) (schema : Schema) (funcs : Funcs)
    (pkgInfo : PackageInfo) : result (list string) :=
  header ← ofSum (tmpl_Header funcs (pkgInfo, schema));
  scalars ← sectionsOf (tmpl_Scalar funcs) (ofKind SCALAR schema);
  objects ← sectionsOf (fun t => tmpl_Object funcs (t, isModuleCode g))
                       (ofKind OBJECT schema);
  enums ← sectionsOf (tmpl_Enum funcs) (ofKind ENUM schema);
  inputs ← sectionsOf (tmpl_Input funcs) (ofKind INPUT_OBJECT schema);
  entry ← (if isModuleCode g
           then m ← ofSum (tmpl_Module funcs (schema, SourceDir g)); Ok [m]
           else Ok []);
  Ok ([header] ++ scalars ++ objects ++ enums ++ inputs ++ entry)%list.

(** The template of a type's kind, on the data [Generate] gives it. *)
Definition typeSection (g : Config) (funcs : Funcs) (t : Type_) : error + string :=
  match Kind t with
  | SCALAR => tmpl_Scalar funcs t
  | OBJECT => tmpl_Object funcs (t, isModuleCode g)
  | ENUM => tmpl_Enum funcs t
  | INPUT_OBJECT => tmpl_Input funcs t
  end.

(** Some section template fails to render. *)
Definition sectionFails (g : Config) (schema : Schema) (funcs : Funcs)
    (pkgInfo : PackageInfo) : Prop :=
  (∃ e, tmpl_Header funcs (pkgInfo, schema) = inl e)
  ∨ (∃ t e, t ∈ Types schema ∧ typeSection g funcs t = inl e)
  ∨ (isModuleCode g = true ∧ ∃ e, tmpl_Module funcs (schema, SourceDir g) = inl e).

End RenderOrder.

(** ** A concrete workspace *)

Module Fixture.

Import generator.

Definition baseline : modfile.File :=
  modfile.mkFile (Some "dagger.io/dagger")
    [modfile.mkReq "github.com/Khan/genqlient" "v0.6.0" false;
     modfile.mkReq "github.com/99designs/gqlgen" "v0.17.31" false]
    ["go 1.20"].

Definition userMod : modfile.File :=
  modfile.mkFile (Some "example.com/app")
    [modfile.mkReq "github.com/Khan/genqlient" "v0.5.0" false;
     modfile.mkReq "github.com/stretchr/testify" "v1.8.4" false]
    ["go 1.21"].

(** A [go.mod] with a [require] line and no [module] line. *)
Definition anonMod : modfile.File :=
  modfile.mkFile None [modfile.mkReq "github.com/stretchr/testify" "v1.8.4" false] [].

(** The manifest a first run synthesizes for the module name
    [My Cool Thing]. *)
Definition coolMod : modfile.File :=
  modfile.mkFile (Some "my-cool-thing")
    [modfile.mkReq "github.com/99designs/gqlgen" "v0.17.31" false;
     modfile.mkReq "github.com/Khan/genqlient" "v0.6.0" false]
    [].

(** [userMod] after the baseline is merged into it. *)
Definition reconciledMod : modfile.File :=
  modfile.mkFile (Some "example.com/app")
    [modfile.mkReq "github.com/Khan/genqlient" "v0.6.0" false;
     modfile.mkReq "github.com/stretchr/testify" "v1.8.4" false;
     modfile.mkReq "github.com/99designs/gqlgen" "v0.17.31" false]
    ["go 1.21"].

Definition printReq (r : modfile.Req) : string :=
  "require " ++ modfile.Path r ++ " " ++ modfile.Version r
  ++ (if modfile.Indirect r then " // indirect" else EmptyString) ++ NL.

Definition printFile (f : modfile.File) : string :=
  match modfile.Module f with
  | Some m => "module " ++ m ++ NL
  | None => EmptyString
  end
  ++ String.concat EmptyString (printReq <$> modfile.Require_ f)
  ++ String.concat EmptyString ((fun d => d ++ NL) <$> modfile.Directives f).

Definition knownMods : list modfile.File :=
  [baseline; userMod; anonMod; coolMod; reconciledMod].

(** A parser that reads back the printed form of the known files. *)
Definition parseKnown (data : string) : error + modfile.File :=
  match filter (fun f => printFile f = data) knownMods with
  | f :: _ => inr f
  | [] => inl "go.mod: malformed module file"
  end.

#[export] Instance libs : GoLibs := {|
  modfile_Parse := fun _ data => parseKnown data;
  modfile_Format := fun f => inr (printFile f);
  format_Source := fun src => inr src;
  filepath_Join := fun dir name => dir ++ "/" ++ name
|}.

#[export] Instance embedded : Embedded := {|
  GoMod := printFile baseline;
  GoSum := "github.com/Khan/genqlient v0.6.0 h1:Bwb1170ekuNIVIwTJEqvO8y7RxBxXu639VJOkKSrwAk=" ++ NL;
  QueryBuilder := {[ "querybuilder/querybuilder.go" := "package querybuilder" ++ NL ]}
|}.

(** Modelled from the spec: the section templates are not among the
    sources.  Here each section names its type, the Objects show the
    module-code flag, the Enum template needs a description (so a
    template can fail), and the module entry point is a dispatch shim
    over the functions that the loaded package declares. *)
#[export] Instance templates : Templates := {|
  tmpl_Header := fun _ d => inr ("package " ++ PackageName d.1 ++ NL);
  tmpl_Scalar := fun _ t => inr ("type " ++ introspection.Name t ++ " string" ++ NL);
  tmpl_Object := fun _ d =>
    inr ("type " ++ introspection.Name d.1 ++ " struct{}"
        ++ (if d.2 then " // module" else EmptyString) ++ NL);
  tmpl_Enum := fun _ t =>
    if String.eqb (introspection.Description t) EmptyString
    then inl ("template: enum: no description for " ++ introspection.Name t)
    else inr ("type " ++ introspection.Name t ++ " string // enum" ++ NL);
  tmpl_Input := fun _ t => inr ("type " ++ introspection.Name t ++ " struct{} // input" ++ NL);
  tmpl_Module := fun f _ =>
    inr ("func main() { dispatch("
        ++ String.concat ", " (match f_pkg f with
                               | Some pkg => packages.Decls pkg
                               | None => []
                               end)
        ++ ") }" ++ NL)
|}.

Definition schema : introspection.Schema :=
  introspection.mkSchema
    [introspection.mkType introspection.OBJECT "Container" "a container";
     introspection.mkType introspection.INPUT_OBJECT "BuildArg" "a build argument";
     introspection.mkType introspection.SCALAR "FileID" "a file identifier";
     introspection.mkType introspection.ENUM "CacheSharingMode" "sharing mode";
     introspection.mkType introspection.OBJECT "Directory" "a directory";
     introspection.mkType introspection.SCALAR "Platform" "a platform"].

(** The same schema with an Enum that the Enum template rejects. *)
Definition badSchema : introspection.Schema :=
  introspection.mkSchema
    (introspection.Types schema
     ++ [introspection.mkType introspection.ENUM "NetworkProtocol" EmptyString])%list.

Definition cfg : Config := mkConfig "My Cool Thing" "/work" "/work".
Definition clientCfg : Config := mkConfig EmptyString "/work" "/work".

Definition mainPkg : packages.Package :=
  packages.mkPackage "main" "my-cool-thing" (Some "my-cool-thing") ["MyFunction"].

(** One package is found in a directory that holds [main.go]. *)
Definition loadOne (d : gmap string string) (dir : string)
    : error + list packages.Package :=
  match d !! (dir ++ "/main.go") with
  | Some _ => inr [mainPkg]
  | None => inr []
  end.

(** An [imports.Process] that finds nothing to add or to remove. *)
Definition keepImports (file src : string) : error + string := inr src.

Definition worldOf (d : gmap string string) : World := mkWorld d (loadOne d) keepImports.

Definition emptyDisk : gmap string string := ∅.
Definition userDisk : gmap string string :=
  {[ "/work/go.mod" := printFile userMod; "/work/notes.txt" := "remember the milk" ]}.
Definition startedDisk : gmap string string :=
  {[ "/work/main.go" := "package main" ++ NL; "/work/go.mod" := printFile userMod ]}.
Definition anonDisk : gmap string string :=
  {[ "/work/go.mod" := printFile anonMod ]}.

Definition malformedDisk : gmap string string :=
  {[ "/work/go.mod" := "modul example.com/app" ++ NL ]}.

Definition start (d : gmap string string) : State := mkState ∅ (worldOf d).





End Fixture.

(** ** Bytes of a name *)

(** Every byte of [s] satisfies [P]. *)
Fixpoint allBytes (P : ascii → bool) (s : string) : bool :=
  match s with
  | EmptyString => true
  | String c r => P c && allBytes P r
  end.

Definition isAlnum (c : ascii) : bool := isCap c || isLow c || isNum c.

(** A byte that a kebab-case name can hold: no upper-case letter, no
    space, underscore or dot. *)
Definition kebabByte (c : ascii) : bool :=
  negb (isCap c) && negb ((code c =? 32)%N || (code c =? 95)%N || (code c =? 46)%N).

Definition lowOrHyphen (c : ascii) : bool := isLow c || (code c =? 45)%N.

(** The closure [checkOutput] of [TestEnvChecks]
    ([core/integration/module_test.go]). *)
Definition checkOutput (name : string) : string :=
  "WE ARE RUNNING CHECK " ++ strcase.ToKebab name.

(** ** What a computation writes and observes *)

(** [m] writes into [mfs] under the names of [names] only. *)
Definition confined (names : list string) {A} (m : M A) : Prop :=
  ∀ st name, name ∉ names → mfs (m st).2 !! name = mfs st !! name.

(** Two states look alike to a computation that tests the files of
    [stats] for existence, reads the files of [reads], probes the
    directories of [dirs] and has the imports of the files of
    [procs] processed. *)
Definition agree (stats reads dirs procs : list string) (st1 st2 : State) : Prop :=
  mfs st1 = mfs st2
  ∧ (∀ p, p ∈ stats →
       is_Some (disk (world st1) !! p) ↔ is_Some (disk (world st2) !! p))
  ∧ (∀ p, p ∈ reads → disk (world st1) !! p = disk (world st2) !! p)
  ∧ (∀ d, d ∈ dirs → packages_Load (world st1) d = packages_Load (world st2) d)
  ∧ (∀ f src, f ∈ procs →
       imports_Process (world st1) f src = imports_Process (world st2) f src).

(** [m] observes of the world no more than that. *)
Definition observes (stats reads dirs procs : list string) {A} (m : M A) : Prop :=
  ∀ st1 st2, agree stats reads dirs procs st1 st2 →
    (m st1).1 = (m st2).1 ∧ agree stats reads dirs procs (m st1).2 (m st2).2.

(** ** Libraries and embedded files that fail *)

Module Faulty.

Import Fixture.

(** An embedded [go.mod] that does not parse. *)
Definition brokenEmbedded : Embedded := {|
  GoMod := "<<<<<<< HEAD" ++ NL;
  GoSum := EmptyString;
  QueryBuilder := ∅
|}.

(** A [format.Source] that rejects the text. *)
Definition rejectingFormat : GoLibs := {|
  modfile_Parse := fun _ data => parseKnown data;
  modfile_Format := fun f => inr (printFile f);
  format_Source := fun _ => inl "3:1: expected declaration, found '}'";
  filepath_Join := fun dir name => dir ++ "/" ++ name
|}.

(** A [format.Source] that changes the text. *)
Definition markingFormat : GoLibs := {|
  modfile_Parse := fun _ data => parseKnown data;
  modfile_Format := fun f => inr (printFile f);
  format_Source := fun src => inr ("// formatted" ++ NL ++ src);
  filepath_Join := fun dir name => dir ++ "/" ++ name
|}.

(** The empty workspace on a machine where [imports.Process] rejects
    the formatted text. *)
Definition rejectingImports : State :=
  mkState ∅ (mkWorld emptyDisk (loadOne emptyDisk)
                     (fun file _ => inl (file ++ ":3:1: expected declaration, found '}'"))).

(** The user's workspace with one more file, which the generator has
    no reason to look at. *)
Definition userDiskWithReadme : gmap string string :=
  <["/work/README.md" := "# my module" ++ NL]> userDisk.

(** The sections that the first run on the empty workspace renders. *)
Definition firstSections : list string :=
  match renderSections cfg schema
          (GoTemplateFuncs schema (generator.ModuleName cfg) None)
          (mkInfo "main" "my-cool-thing") with
  | Ok render => render
  | _ => []
  end.

End Faulty.

(** ** Two properties of a computation *)


(** [m] leaves the world as it is, and what it returns and writes
    into [mfs] is decided by [mfs] and the files on disk alone. *)
Definition tame {A} (m : M A) : Prop :=
  (∀ st, world (m st).2 = world st)
  ∧ (∀ st1 st2, mfs st1 = mfs st2 → disk (world st1) = disk (world st2) →
       (m st1).1 = (m st2).1 ∧ mfs (m st1).2 = mfs (m st2).2).


(** * Properties *)

(** ** Requirement updates *)

Section ModfileFacts.

Import modfile.

Lemma oneVersionPerPath_spec rs a b :
  oneVersionPerPath rs = true →
  a ∈ rs → b ∈ rs → Path a = Path b → Version a = Version b.
Proof.
  unfold oneVersionPerPath. rewrite forallb_forall.
  intros Hall Ha Hb Hp.
  apply list_elem_of_In in Ha, Hb.
  specialize (Hall a Ha). rewrite forallb_forall in Hall.
  specialize (Hall b Hb).
  rewrite Hp, String.eqb_refl in Hall. simpl in Hall.
  by apply String.eqb_eq.
Qed.

Lemma addRequireLoop_other (P : Req → Prop) `{!∀ r, Decision (P r)}
    path vers need rs :
  (∀ r, P r → Path r ≠ path) →
  filter P (addRequireLoop path vers need rs).1 = filter P rs.
Proof.
  intros HP. revert need.
  induction rs as [|r rs IH]; intros need; simpl; [done|].
  destruct (String.eqb_spec (Path r) path) as [Heq|Hne].
  - rewrite (filter_cons_False P r) by (intros HPr; by apply HP in HPr).
    destruct need.
    + specialize (IH false).
      destruct (addRequireLoop path vers false rs) as [out n]. simpl in *.
      rewrite filter_cons_False; [done|].
      intros HPr. by apply HP in HPr.
    + apply IH.
  - specialize (IH need).
    destruct (addRequireLoop path vers need rs) as [out n]. simpl in *.
    rewrite !filter_cons. by rewrite IH.
Qed.

Lemma AddRequire_other (P : Req → Prop) `{!∀ r, Decision (P r)} f path vers :
  (∀ r, P r → Path r ≠ path) →
  filter P (Require_ (AddRequire f path vers)) = filter P (Require_ f).
Proof.
  intros HP. unfold AddRequire.
  pose proof (addRequireLoop_other P path vers true (Require_ f) HP) as Hloop.
  destruct (addRequireLoop path vers true (Require_ f)) as [rs need].
  simpl in Hloop. destruct need; simpl; [|done].
  rewrite filter_app, Hloop, filter_cons_False, filter_nil, app_nil_r; [done|].
  intros HPr. by apply HP in HPr.
Qed.

(** Once the first line is set ([need] is false), every line for
    [path] goes. *)
Lemma addRequireLoop_drop path vers rs :
  linesFor path (addRequireLoop path vers false rs).1 = []
  ∧ (addRequireLoop path vers false rs).2 = false.
Proof.
  unfold linesFor.
  induction rs as [|r rs [IH1 IH2]]; simpl; [done|].
  destruct (String.eqb_spec (Path r) path) as [Heq|Hne]; [done|].
  destruct (addRequireLoop path vers false rs) as [out n]. simpl in *.
  by rewrite filter_cons_False.
Qed.

Lemma addRequireLoop_first path vers rs :
  match (addRequireLoop path vers true rs).2 with
  | true => linesFor path (addRequireLoop path vers true rs).1 = []
  | false => ∃ r, linesFor path (addRequireLoop path vers true rs).1 = [r]
                  ∧ Path r = path ∧ Version r = vers
  end.
Proof.
  unfold linesFor.
  induction rs as [|r rs IH]; simpl; [done|].
  destruct (String.eqb_spec (Path r) path) as [Heq|Hne].
  - destruct (addRequireLoop_drop path vers rs) as [Hnil Hflag].
    unfold linesFor in Hnil.
    destruct (addRequireLoop path vers false rs) as [out n]. simpl in *.
    subst n. exists (setVersion r vers).
    rewrite filter_cons_True by done. by rewrite Hnil.
  - destruct (addRequireLoop path vers true rs) as [out n]. simpl in *.
    destruct n.
    + by rewrite filter_cons_False.
    + destruct IH as (r' & Hf & Hp & Hv). exists r'.
      by rewrite filter_cons_False.
Qed.

(** [AddRequire] is an upsert: afterwards exactly one line is for
    [path], and it carries [vers]. *)
Lemma AddRequire_upsert f path vers :
  ∃ r, linesFor path (Require_ (AddRequire f path vers)) = [r]
       ∧ Path r = path ∧ Version r = vers.
Proof.
  unfold AddRequire.
  pose proof (addRequireLoop_first path vers (Require_ f)) as Hloop.
  destruct (addRequireLoop path vers true (Require_ f)) as [rs need].
  simpl in Hloop. destruct need; simpl; [|done].
  exists (mkReq path vers false). unfold linesFor in *.
  rewrite filter_app, Hloop. simpl.
  by rewrite filter_cons_True.
Qed.

Lemma AddRequire_frame f path vers :
  Module (AddRequire f path vers) = Module f
  ∧ Directives (AddRequire f path vers) = Directives f.
Proof.
  unfold AddRequire.
  destruct (addRequireLoop path vers true (Require_ f)) as [rs []]; done.
Qed.

(** What [SetRequire] collects: a path is mapped to a version
    exactly when the accumulator or a line of [req] gives it. *)
Lemma collectNeed_spec req acc need :
  collectNeed req acc = Some need →
  ∀ p v, (∃ i, need !! p = Some (v, i)) ↔
         ((∃ i, acc !! p = Some (v, i))
          ∨ (∃ b, b ∈ req ∧ Path b = p ∧ Version b = v)).
Proof.
  revert acc. induction req as [|r req IH]; intros acc Hc p v; simpl in Hc.
  - simplify_eq. split; [by left|]. intros [?|(b & Hb & _)]; [done|].
    by apply not_elem_of_nil in Hb.
  - assert (collectNeed req (<[Path r := (Version r, Indirect r)]> acc) = Some need
            ∧ ∀ v0 i0, acc !! Path r = Some (v0, i0) → v0 = Version r) as [Hc' Hsame].
    { destruct (acc !! Path r) as [[v0 i0]|] eqn:Hacc.
      - destruct (String.eqb_spec v0 (Version r)); [|done].
        split; [done|]. intros ?? [= -> _]. done.
      - split; [done|]. intros ?? [=]. }
    rewrite (IH _ Hc' p v). clear IH Hc Hc'.
    destruct (decide (Path r = p)) as [<-|Hne].
    + rewrite lookup_insert_eq. split.
      * intros [[i [= <- _]]|(b & Hb & Hp & Hv)].
        -- right. exists r. split; [left|done].
        -- right. exists b. split; [by right|done].
      * intros [[i Hi]|(b & Hb & Hp & Hv)].
        -- left. apply Hsame in Hi as ->. eauto.
        -- apply elem_of_cons in Hb as [->|Hb].
           ++ left. subst v. eauto.
           ++ right. eauto.
    + rewrite lookup_insert_ne by done. split.
      * intros [?|(b & Hb & Hp & Hv)]; [by left|].
        right. exists b. split; [by right|done].
      * intros [?|(b & Hb & Hp & Hv)]; [by left|].
        apply elem_of_cons in Hb as [->|Hb]; [done|].
        right. eauto.
Qed.

(** [SetRequire] on a file that has no [require] line yet. *)
Lemma SetRequire_fresh name req newMod :
  SetRequire (AddModuleStmt empty name) req = Some newMod →
  Module newMod = Some name
  ∧ Directives newMod = []
  ∧ NoDup (Path <$> Require_ newMod)
  ∧ ∀ p v, (∃ r, r ∈ Require_ newMod ∧ Path r = p ∧ Version r = v) ↔
           (∃ b, b ∈ req ∧ Path b = p ∧ Version b = v).
Proof.
  unfold SetRequire. destruct (collectNeed req ∅) as [need|] eqn:Hneed; [|done].
  simpl. intros [= <-]. simpl. split_and!; try done.
  - rewrite merge_sort_Permutation, <-list_fmap_compose.
    apply (NoDup_fst_map_to_list need).
  - intros p v. pose proof (collectNeed_spec _ _ _ Hneed p v) as Hspec.
    setoid_rewrite lookup_empty in Hspec.
    transitivity (∃ i, need !! p = Some (v, i)).
    + split.
      * intros (r & Hr & <- & <-).
        rewrite merge_sort_Permutation in Hr.
        apply list_elem_of_fmap in Hr as ([k [v i]] & -> & Hkv).
        apply elem_of_map_to_list in Hkv. simpl. eauto.
      * intros [i Hi]. exists (mkReq p v i). split; [|done].
        rewrite merge_sort_Permutation.
        apply list_elem_of_fmap. exists (p, (v, i)). split; [done|].
        by apply elem_of_map_to_list.
    + rewrite Hspec. split; [|by right].
      intros [[i [=]]|?]; done.
Qed.

End ModfileFacts.

(** ** Merging the baseline *)

Section BaselineFacts.

Import modfile.

Lemma addBaseline_snoc cur l x :
  addBaseline cur (l ++ [x]) = AddRequire (addBaseline cur l) (Path x) (Version x).
Proof. unfold addBaseline. by rewrite foldl_app. Qed.

Lemma addBaseline_frame cur l :
  Module (addBaseline cur l) = Module cur
  ∧ Directives (addBaseline cur l) = Directives cur.
Proof.
  induction l as [|x l [IHm IHd]] using rev_ind; [done|].
  rewrite addBaseline_snoc.
  destruct (AddRequire_frame (addBaseline cur l) (Path x) (Version x)) as [-> ->].
  done.
Qed.

Lemma addBaseline_outside paths cur l :
  (∀ b, b ∈ l → Path b ∈ paths) →
  linesOutside paths (Require_ (addBaseline cur l)) = linesOutside paths (Require_ cur).
Proof.
  unfold linesOutside.
  induction l as [|x l IH] using rev_ind; intros Hin; [done|].
  rewrite addBaseline_snoc, AddRequire_other.
  - apply IH. intros b Hb. apply Hin, elem_of_app. by left.
  - intros r Hr Heq. apply Hr. rewrite Heq. apply Hin, elem_of_app. right. by left.
Qed.

Lemma addBaseline_upsert cur l b :
  (∀ a c, a ∈ l → c ∈ l → Path a = Path c → Version a = Version c) →
  b ∈ l →
  ∃ r, linesFor (Path b) (Require_ (addBaseline cur l)) = [r]
       ∧ Path r = Path b ∧ Version r = Version b.
Proof.
  induction l as [|x l IH] using rev_ind; intros Hone Hb.
  - by apply not_elem_of_nil in Hb.
  - rewrite addBaseline_snoc.
    destruct (decide (Path x = Path b)) as [Heq|Hne].
    + destruct (AddRequire_upsert (addBaseline cur l) (Path x) (Version x))
        as (r & Hr & Hp & Hv).
      exists r. rewrite <-Heq. split_and!; [done|done|].
      rewrite Hv. apply Hone; [|done|done].
      apply elem_of_app. right. by left.
    + unfold linesFor. rewrite AddRequire_other by (intros r Hr1 Hr2; congruence).
      apply IH.
      * intros a c Ha Hc. apply Hone; apply elem_of_app; by left.
      * apply elem_of_app in Hb as [Hb|Hb]; [done|].
        apply list_elem_of_singleton in Hb. by subst.
Qed.

End BaselineFacts.

(** ** Running a computation *)

Section MonadFacts.

Lemma bind_run {A B} (m : M A) (f : A → M B) st :
  (m ≫= f) st =
  match m st with
  | (Ok a, st') => f a st'
  | (Err e, st') => (Err e, st')
  | (Panic msg, st') => (Panic msg, st')
  end.
Proof. reflexivity. Qed.

Lemma bind_Ok {A B} (m : M A) (f : A → M B) st b st' :
  (m ≫= f) st = (Ok b, st') →
  ∃ a st1, m st = (Ok a, st1) ∧ f a st1 = (Ok b, st').
Proof.
  rewrite bind_run. destruct (m st) as [[a|e|msg] st1]; [eauto|done|done].
Qed.

Lemma lift_Ok {A} (r : result A) st a st' :
  lift r st = (Ok a, st') → r = Ok a ∧ st' = st.
Proof. unfold lift. by intros [= -> ->]. Qed.

Lemma wrapErr_Ok {A} prefix (r : result A) a :
  wrapErr prefix r = Ok a → r = Ok a.
Proof. by destruct r. Qed.

Lemma ofSum_Ok {A} (r : error + A) a : ofSum r = Ok a → r = inr a.
Proof. destruct r; simpl; congruence. Qed.

Lemma WriteFile_root name data st :
  hasSlash name || String.eqb name EmptyString = false →
  WriteFile name data st = (Ok tt, mkState (<[name := data]> (mfs st)) (world st)).
Proof. unfold WriteFile. by intros ->. Qed.

Lemma tame_ret {A} (a : A) : tame (mret a).
Proof. split; [done|]. by intros st1 st2 Hm Hd. Qed.

Lemma tame_bind {A B} (m : M A) (f : A → M B) :
  tame m → (∀ a, tame (f a)) → tame (m ≫= f).
Proof.
  intros [Hw Hd] Hf. split.
  - intros st. rewrite bind_run. specialize (Hw st).
    destruct (m st) as [[a|e|msg] st1]; simpl in *; [|done|done].
    destruct (Hf a) as [Hwf _]. by rewrite Hwf.
  - intros st1 st2 Hm Hdisk. rewrite !bind_run.
    destruct (Hd st1 st2 Hm Hdisk) as [Hr Hmfs].
    pose proof (Hw st1) as Hw1. pose proof (Hw st2) as Hw2.
    destruct (m st1) as [r1 s1], (m st2) as [r2 s2]. simpl in *. subst r2.
    destruct r1 as [a|e|msg]; [|done|done].
    destruct (Hf a) as [_ Hdf]. apply Hdf; [done|].
    by rewrite Hw1, Hw2.
Qed.

Lemma tame_lift {A} (r : result A) : tame (lift r).
Proof. split; [done|]. by intros st1 st2 Hm Hd. Qed.

Lemma tame_panic {A} msg : tame (@panic A msg).
Proof. split; [done|]. by intros st1 st2 Hm Hd. Qed.

Lemma tame_WriteFile name data : tame (WriteFile name data).
Proof.
  unfold WriteFile. split.
  - intros st. by destruct (_ || _).
  - intros st1 st2 Hm Hd. destruct (_ || _); simpl; [done|]. by rewrite Hm.
Qed.

Lemma tame_Stat path : tame (os_Stat path).
Proof.
  unfold os_Stat. split.
  - intros st. by destruct (_ !! _).
  - intros st1 st2 Hm Hd. rewrite Hd. by destruct (_ !! _).
Qed.

Lemma tame_ReadFile path : tame (os_ReadFile path).
Proof.
  unfold os_ReadFile. split.
  - intros st. by destruct (_ !! _).
  - intros st1 st2 Hm Hd. rewrite Hd. by destruct (_ !! _).
Qed.

Lemma tame_readMfs : tame readMfs.
Proof. split; [done|]. intros st1 st2 Hm Hd. simpl. by rewrite Hm. Qed.

End MonadFacts.

Ltac tame_step :=
  match goal with
  | |- tame (mbind _ _) => apply tame_bind; [|intros ?]
  | |- tame (mret _) => apply tame_ret
  | |- tame (lift _) => apply tame_lift
  | |- tame (panic _) => apply tame_panic
  | |- tame (WriteFile _ _) => apply tame_WriteFile
  | |- tame (os_Stat _) => apply tame_Stat
  | |- tame (os_ReadFile _) => apply tame_ReadFile
  | |- tame readMfs => apply tame_readMfs
  | |- tame (match ?x with _ => _ end) => destruct x
  end.

(** ** The rendered sections *)

Section RenderFacts.

Context `{!Templates}.

Import generator introspection.

Lemma visitAll_sectionsOf tmpl ts render :
  visitAll (fun t r => appendOut (tmpl t) r) ts render =
  (outs ← sectionsOf tmpl ts; mret (render ++ outs)%list).
Proof.
  revert render. induction ts as [|t ts IH]; intros render; simpl.
  - by rewrite app_nil_r.
  - unfold appendOut. destruct (tmpl t) as [e|o]; simpl; [done|].
    rewrite IH. destruct (sectionsOf tmpl ts) as [os|e|msg]; simpl; [|done|done].
    unfold mret, result_ret. by rewrite <-app_assoc.
Qed.

Lemma renderSections_inOrder g schema funcs info :
  renderSections g schema funcs info = renderInOrder g schema funcs info.
Proof.
  unfold renderSections, renderInOrder, Visit. simpl.
  destruct (tmpl_Header _ _) as [e|header]; simpl; [done|].
  rewrite !visitAll_sectionsOf.
  destruct (sectionsOf (tmpl_Scalar funcs) _) as [scalars|e|msg]; simpl; [|done|done].
  rewrite !visitAll_sectionsOf.
  destruct (sectionsOf _ (ofKind OBJECT schema)) as [objects|e|msg]; simpl; [|done|done].
  rewrite !visitAll_sectionsOf.
  destruct (sectionsOf _ (ofKind ENUM schema)) as [enums|e|msg]; simpl; [|done|done].
  rewrite !visitAll_sectionsOf.
  destruct (sectionsOf _ (ofKind INPUT_OBJECT schema)) as [inputs|e|msg]; simpl; [|done|done].
  destruct (isModuleCode g); simpl.
  - destruct (tmpl_Module _ _) as [e|m]; simpl; [done|].
    unfold mret, result_ret. f_equal. by rewrite <-!app_assoc.
  - unfold mret, result_ret. f_equal. by rewrite app_nil_r, <-!app_assoc.
Qed.

Lemma sectionsOf_Ok tmpl ts outs :
  sectionsOf tmpl ts = Ok outs ↔ Forall2 (fun t o => tmpl t = inr o) ts outs.
Proof.
  revert outs. induction ts as [|t ts IH]; intros outs; simpl.
  - split; [intros [= <-]; constructor|]. by intros ->%Forall2_nil_inv_l.
  - destruct (tmpl t) as [e|o] eqn:Ht; simpl.
    + split; [done|]. intros (o & os & Ho & _ & _)%Forall2_cons_inv_l. congruence.
    + destruct (sectionsOf tmpl ts) as [os|e|msg]; simpl.
      * split.
        -- intros [= <-]. constructor; [done|]. by apply IH.
        -- intros (o' & os' & Ho & Hos & ->)%Forall2_cons_inv_l.
           apply IH in Hos. congruence.
      * split; [done|].
        intros (o' & os' & Ho & Hos & ->)%Forall2_cons_inv_l. by apply IH in Hos.
      * split; [done|].
        intros (o' & os' & Ho & Hos & ->)%Forall2_cons_inv_l. by apply IH in Hos.
Qed.

Lemma sectionsOf_no_panic tmpl ts msg : sectionsOf tmpl ts ≠ Panic msg.
Proof.
  induction ts as [|t ts IH]; simpl; [done|].
  destruct (tmpl t); simpl; [done|].
  destruct (sectionsOf tmpl ts); simpl; done.
Qed.

Lemma renderInOrder_no_panic g schema funcs info msg :
  renderInOrder g schema funcs info ≠ Panic msg.
Proof.
  unfold renderInOrder.
  destruct (tmpl_Header _ _) as [e|header]; simpl; [done|].
  destruct (sectionsOf (tmpl_Scalar funcs) _) as [scalars|e|m] eqn:Hs1; simpl;
    [|done|by apply sectionsOf_no_panic in Hs1].
  destruct (sectionsOf _ (ofKind OBJECT schema)) as [objects|e|m] eqn:Hs2; simpl;
    [|done|by apply sectionsOf_no_panic in Hs2].
  destruct (sectionsOf _ (ofKind ENUM schema)) as [enums|e|m] eqn:Hs3; simpl;
    [|done|by apply sectionsOf_no_panic in Hs3].
  destruct (sectionsOf _ (ofKind INPUT_OBJECT schema)) as [inputs|e|m] eqn:Hs4; simpl;
    [|done|by apply sectionsOf_no_panic in Hs4].
  destruct (isModuleCode g); simpl; [|done].
  by destruct (tmpl_Module _ _).
Qed.

Lemma renderInOrder_Ok g schema funcs info render :
  renderInOrder g schema funcs info = Ok render →
  ∃ header scalars objects enums inputs entry,
    render = ([header] ++ scalars ++ objects ++ enums ++ inputs ++ entry)%list
    ∧ tmpl_Header funcs (info, schema) = inr header
    ∧ Forall2 (fun t o => tmpl_Scalar funcs t = inr o) (ofKind SCALAR schema) scalars
    ∧ Forall2 (fun t o => tmpl_Object funcs (t, isModuleCode g) = inr o)
              (ofKind OBJECT schema) objects
    ∧ Forall2 (fun t o => tmpl_Enum funcs t = inr o) (ofKind ENUM schema) enums
    ∧ Forall2 (fun t o => tmpl_Input funcs t = inr o) (ofKind INPUT_OBJECT schema) inputs
    ∧ (if isModuleCode g
       then ∃ m, entry = [m] ∧ tmpl_Module funcs (schema, SourceDir g) = inr m
       else entry = []).
Proof.
  unfold renderInOrder.
  destruct (tmpl_Header _ _) as [e|header]; simpl; [done|].
  destruct (sectionsOf (tmpl_Scalar funcs) _) as [scalars|e|m] eqn:Hs1; simpl; [|done|done].
  destruct (sectionsOf _ (ofKind OBJECT schema)) as [objects|e|m] eqn:Hs2; simpl; [|done|done].
  destruct (sectionsOf _ (ofKind ENUM schema)) as [enums|e|m] eqn:Hs3; simpl; [|done|done].
  destruct (sectionsOf _ (ofKind INPUT_OBJECT schema)) as [inputs|e|m] eqn:Hs4; simpl; [|done|done].
  apply sectionsOf_Ok in Hs1, Hs2, Hs3, Hs4.
  destruct (isModuleCode g); simpl.
  - destruct (tmpl_Module _ _) as [e|m] eqn:Hm; simpl; [done|].
    intros [= <-]. exists header, scalars, objects, enums, inputs, [m].
    split_and!; eauto.
  - intros [= <-]. exists header, scalars, objects, enums, inputs, [].
    split_and!; eauto.
Qed.

Lemma ofKind_partition schema :
  (ofKind SCALAR schema ++ ofKind OBJECT schema ++ ofKind ENUM schema
     ++ ofKind INPUT_OBJECT schema)%list ≡ₚ Types schema.
Proof.
  unfold ofKind. induction (Types schema) as [|t ts IH]; [done|].
  rewrite !filter_cons. destruct t as [[] name doc]; simpl;
    repeat case_decide; try done; simpl.
  - by rewrite IH.
  - rewrite <-Permutation_middle. by rewrite IH.
  - rewrite app_assoc, <-Permutation_middle, <-app_assoc. by rewrite IH.
  - rewrite !app_assoc, <-Permutation_middle, <-!app_assoc. by rewrite IH.
Qed.
End RenderFacts.

(** ** What a successful run did *)

Section GeneratorFacts.

Context `{!GoLibs, !Embedded, !Templates}.

Import generator.

Lemma loadPackage_state dir st : (loadPackage dir st).2 = st.
Proof.
  unfold loadPackage.
  destruct (packages_Load _ _) as [e|[|pkg [|pkg' pkgs]]]; done.
Qed.

Lemma loadPackage_no_panic dir st msg : (loadPackage dir st).1 ≠ Panic msg.
Proof.
  unfold loadPackage.
  destruct (packages_Load _ _) as [e|[|pkg [|pkg' pkgs]]]; done.
Qed.

Lemma attempt_load_run dir st :
  attempt (loadPackage dir) st =
  (match (loadPackage dir st).1 with
   | Ok pkg => Ok (inr pkg)
   | Err e => Ok (inl e)
   | Panic msg => Panic msg
   end, st).
Proof.
  unfold attempt. pose proof (loadPackage_state dir st) as Hst.
  destruct (loadPackage dir st) as [[pkg|e|msg] st']; simpl in *; by subst.
Qed.

(** What follows a probe is tame, whatever the probe returned. *)
Ltac tame_after_probe HK :=
  match goal with
  | |- context [attempt (loadPackage ?d) ≫= ?K] =>
      assert (∀ probe, tame (K probe)) as HK;
      [intros probe; simpl; repeat tame_step|]
  end.


Lemma bootstrapPkg_world g st : world (bootstrapPkg g st).2 = world st.
Proof.
  unfold bootstrapPkg. cbv zeta.
  tame_after_probe HK.
  rewrite !bind_run, !attempt_load_run.
  destruct (loadPackage _ st).1 as [p1|e1|m1]; try done.
  - by apply (HK (inr p1)).
  - by apply (HK (inl e1)).
Qed.

Lemma bootstrapPkg_Ok g st info regen st' :
  bootstrapPkg g st = (Ok (info, regen), st') →
  ∃ sdk newMod body,
    modfile_Parse "go.mod" GoMod = inr sdk
    ∧ modfile_Format newMod = inr body
    ∧ world st' = world st
    ∧ mfs st' = <["go.sum" := GoSum]> (<["go.mod" := body]>
                  (if regen then <[StarterTemplateFile := baseModuleSource g]> (mfs st)
                   else mfs st))
    ∧ regen = match disk (world st) !! filepath_Join (OutputDir g) StarterTemplateFile with
              | Some _ => false
              | None => true
              end
    ∧ PackageName info = match (loadPackage (OutputDir g) st).1 with
                         | Ok pkg => packages.Name pkg
                         | _ => "main"
                         end
    ∧ match disk (world st) !! filepath_Join (OutputDir g) "go.mod" with
      | Some content =>
          ∃ cur, modfile_Parse "go.mod" content = inr cur
                 ∧ newMod = addBaseline cur (modfile.Require_ sdk)
                 ∧ modfile.Module cur = Some (ModulePath info)
      | None =>
          ModulePath info = strcase.ToKebab (ModuleName g)
          ∧ modfile.SetRequire
              (modfile.AddModuleStmt modfile.empty (strcase.ToKebab (ModuleName g)))
              (modfile.Require_ sdk) = Some newMod
      end.
Proof.
  intros Hrun. pose proof (bootstrapPkg_world g st) as Hworld.
  rewrite Hrun in Hworld. simpl in Hworld.
  unfold bootstrapPkg in Hrun. cbv zeta in Hrun.
  apply bind_Ok in Hrun as (probe & s1 & Hprobe & Hrun).
  rewrite attempt_load_run in Hprobe.
  apply bind_Ok in Hrun as (name & s2 & Hname & Hrun).
  apply bind_Ok in Hrun as (statErr & s3 & Hstat & Hrun).
  apply bind_Ok in Hrun as (needs & s4 & Hneeds & Hrun).
  apply bind_Ok in Hrun as (sdk & s5 & Hsdk & Hrun).
  apply bind_Ok in Hrun as (content & s6 & Hread & Hrun).
  apply bind_Ok in Hrun as ([newMod modulePath] & s7 & Hmod & Hrun).
  apply bind_Ok in Hrun as (body & s8 & Hbody & Hrun).
  apply bind_Ok in Hrun as ([] & s9 & Hw1 & Hrun).
  apply bind_Ok in Hrun as ([] & s10 & Hw2 & Hrun).
  injection Hrun as <- <- <-.
  rewrite WriteFile_root in Hw2 by reflexivity.
  rewrite WriteFile_root in Hw1 by reflexivity.
  injection Hw2 as <-. injection Hw1 as <-.
  apply lift_Ok in Hbody as [Hbody ->].
  apply wrapErr_Ok, ofSum_Ok in Hbody.
  apply lift_Ok in Hsdk as [Hsdk ->].
  apply wrapErr_Ok, ofSum_Ok in Hsdk.
  assert (s1 = st) as -> by (by injection Hprobe).
  assert (s2 = st ∧ name = match (loadPackage (OutputDir g) st).1 with
                           | Ok pkg => packages.Name pkg
                           | _ => "main"
                           end) as [-> Hnm].
  { destruct (loadPackage (OutputDir g) st).1 as [pkg|e|msg]; [| |done].
    - injection Hprobe as <-.
      destruct (packages.Module pkg); [|done]. by injection Hname as <- <-.
    - injection Hprobe as <-. by injection Hname as <- <-. }
  unfold os_Stat in Hstat. unfold os_ReadFile in Hread. simpl in *.
  assert (s4 = mkState (if needs then <[StarterTemplateFile := baseModuleSource g]> (mfs st)
                        else mfs st) (world st)
          ∧ needs = match disk (world st) !! filepath_Join (OutputDir g) StarterTemplateFile with
                    | Some _ => false
                    | None => true
                    end) as [-> Hneeds'].
  { destruct (disk (world st) !! filepath_Join (OutputDir g) StarterTemplateFile).
    - injection Hstat as <- <-. injection Hneeds as <- <-. by destruct st.
    - injection Hstat as <- <-.
      rewrite bind_run, WriteFile_root in Hneeds by reflexivity.
      by injection Hneeds as <- <-. }
  simpl in Hread.
  assert (s7 = s6 ∧ s6 = mkState (if needs then <[StarterTemplateFile := baseModuleSource g]> (mfs st)
                        else mfs st) (world st) ∧
    match disk (world st) !! filepath_Join (OutputDir g) "go.mod" with
    | Some content =>
          ∃ cur, modfile_Parse "go.mod" content = inr cur
                 ∧ newMod = addBaseline cur (modfile.Require_ sdk)
                 ∧ modfile.Module cur = Some modulePath
    | None =>
          modulePath = strcase.ToKebab (ModuleName g)
          ∧ modfile.SetRequire
              (modfile.AddModuleStmt modfile.empty (strcase.ToKebab (ModuleName g)))
              (modfile.Require_ sdk) = Some newMod
    end) as (-> & -> & Hmanifest).
  { destruct (disk (world st) !! filepath_Join (OutputDir g) "go.mod") as [data|].
    - injection Hread as <- <-.
      apply bind_Ok in Hmod as (cur & s' & Hcur & Hmod).
      apply lift_Ok in Hcur as [Hcur ->].
      apply wrapErr_Ok, ofSum_Ok in Hcur.
      destruct (modfile.Module cur) as [path|] eqn:Hpath; [|done].
      injection Hmod as <- <- <-. split_and!; try done. by exists cur.
    - injection Hread as <- <-.
      destruct (modfile.SetRequire _ _) as [f|]; [|done].
      by injection Hmod as <- <- <-. }
  by exists sdk, newMod, body.
Qed.

Lemma loadPackage_world dir st1 st2 :
  world st1 = world st2 → (loadPackage dir st1).1 = (loadPackage dir st2).1.
Proof.
  intros Hw. unfold loadPackage. rewrite Hw.
  destruct (packages_Load _ _) as [e|[|pkg [|pkg' pkgs]]]; done.
Qed.


Lemma InstallGitAttributes_Ok file outDir st st' :
  InstallGitAttributes file outDir st = (Ok tt, st') →
  world st' = world st
  ∧ ∀ name, name ≠ ".gitattributes" → mfs st' !! name = mfs st !! name.
Proof.
  intros Hrun. unfold InstallGitAttributes in Hrun. cbv zeta in Hrun.
  apply bind_Ok in Hrun as (existing & s1 & Hread & Hrun).
  unfold os_ReadFile in Hread.
  destruct (disk (world st) !! _) as [old|]; injection Hread as <- <-.
  - destruct (contains _ _).
    + by injection Hrun as <-.
    + rewrite WriteFile_root in Hrun by reflexivity. injection Hrun as <-.
      split; [done|]. intros name Hne. simpl. by rewrite lookup_insert_ne.
  - rewrite WriteFile_root in Hrun by reflexivity. injection Hrun as <-.
    split; [done|]. intros name Hne. simpl. by rewrite lookup_insert_ne.
Qed.

Lemma Generate_Ok g schema st r st' :
  Generate g schema st = (Ok r, st') →
  ∃ info regen st1 render formatted,
    bootstrapPkg g (mkState ∅ (world st)) = (Ok (info, regen), st1)
    ∧ renderSections g schema
        (GoTemplateFuncs schema (ModuleName g) (loadedPkg (SourceDir g) st)) info
      = Ok render
    ∧ postProcess g (world st) render = Ok formatted
    ∧ world st' = world st
    ∧ mfs st' !! ClientGenFile = Some formatted
    ∧ (∀ name, name ≠ ".gitattributes" → name ≠ ClientGenFile →
               mfs st' !! name = mfs st1 !! name)
    ∧ r = mkGenerated [mfs st'; QueryBuilder] [["go"; "mod"; "tidy"]] regen.
Proof.
  intros Hrun. unfold Generate in Hrun.
  apply bind_Ok in Hrun as ([] & s0 & Hnew & Hrun).
  injection Hnew as <-.
  apply bind_Ok in Hrun as ([info regen] & s1 & Hboot & Hrun).
  unfold wrapM in Hboot.
  destruct (bootstrapPkg g _) as [rb sb] eqn:Hb.
  injection Hboot as Hrb ->. apply wrapErr_Ok in Hrb as ->.
  pose proof (bootstrapPkg_world g (mkState ∅ (world st))) as Hw1.
  rewrite Hb in Hw1. simpl in Hw1.
  apply bind_Ok in Hrun as (probe & s2 & Hprobe & Hrun).
  rewrite attempt_load_run in Hprobe.
  apply bind_Ok in Hrun as (render & s3 & Hrender & Hrun).
  apply lift_Ok in Hrender as [Hrender ->].
  apply bind_Ok in Hrun as (formatted & s4 & Hpost & Hrun).
  injection Hpost as Hpost <-.
  apply bind_Ok in Hrun as ([] & s5 & Hwrite & Hrun).
  rewrite WriteFile_root in Hwrite by reflexivity. injection Hwrite as <-.
  apply bind_Ok in Hrun as ([] & s6 & Hgit & Hrun).
  apply bind_Ok in Hrun as (layer & s7 & Hlayer & Hrun).
  injection Hlayer as <- <-. injection Hrun as <- <-.
  apply InstallGitAttributes_Ok in Hgit as [Hw6 Hm6]. simpl in *.
  assert (s2 = s1) as -> by (by injection Hprobe).
  assert (sourcePkg probe = loadedPkg (SourceDir g) st) as <-.
  { unfold loadedPkg. rewrite <-(loadPackage_world _ s1 st Hw1).
    destruct (loadPackage (SourceDir g) s1).1; [..|done]; by injection Hprobe as <-. }
  exists info, regen, s1, render, formatted. split_and!; try done.
  - by rewrite <-Hw1.
  - congruence.
  - rewrite Hm6 by done. apply lookup_insert_eq.
  - intros name Hn1 Hn2. rewrite Hm6 by done. by rewrite lookup_insert_ne.
Qed.

Lemma Generate_starter g schema st r st' :
  Generate g schema st = (Ok r, st') →
  world st' = world st
  ∧ Overlay r = [mfs st'; QueryBuilder]
  ∧ match disk (world st) !! filepath_Join (OutputDir g) StarterTemplateFile with
    | None => mfs st' !! StarterTemplateFile = Some (baseModuleSource g)
              ∧ NeedRegenerate r = true
    | Some _ => mfs st' !! StarterTemplateFile = None
                ∧ NeedRegenerate r = false
    end.
Proof.
  intros Hrun.
  apply Generate_Ok in Hrun
    as (info & regen & st1 & render & formatted & Hboot & _ & _ & Hw & _ & Hkeep & ->).
  apply bootstrapPkg_Ok in Hboot
    as (sdk & newMod & body & _ & _ & _ & Hmfs & Hregen & _ & _).
  simpl in *. rewrite (Hkeep StarterTemplateFile) by done. rewrite Hmfs.
  rewrite !lookup_insert_ne by done.
  split_and!; try done.
  destruct (disk (world st) !! filepath_Join (OutputDir g) StarterTemplateFile);
    subst regen; [done|].
  split; [apply lookup_insert_eq|done].
Qed.





Lemma bootstrapPkg_no_client g st info regen st1 :
  bootstrapPkg g (mkState ∅ (world st)) = (Ok (info, regen), st1) →
  mfs st1 !! ClientGenFile = None ∧ world st1 = world st.
Proof.
  intros Hboot.
  apply bootstrapPkg_Ok in Hboot as (sdk & newMod & body & _ & _ & Hw & Hmfs & _).
  split; [|done]. rewrite Hmfs. rewrite !lookup_insert_ne by done.
  destruct regen; [by rewrite lookup_insert_ne|done].
Qed.

Lemma Generate_render_fails g schema st info regen st1 e :
  bootstrapPkg g (mkState ∅ (world st)) = (Ok (info, regen), st1) →
  renderSections g schema
    (GoTemplateFuncs schema (ModuleName g) (loadedPkg (SourceDir g) st)) info = Err e →
  Generate g schema st = (Err e, st1).
Proof.
  intros Hboot Hrender.
  destruct (bootstrapPkg_no_client _ _ _ _ _ Hboot) as [_ Hw].
  unfold Generate. rewrite (bind_run memfs_New). simpl.
  rewrite (bind_run (wrapM _ _)). unfold wrapM. rewrite Hboot. simpl.
  rewrite bind_run, attempt_load_run.
  unfold loadedPkg in Hrender. rewrite <-(loadPackage_world _ st1 st Hw) in Hrender.
  pose proof (loadPackage_no_panic (SourceDir g) st1) as Hnp.
  destruct (loadPackage (SourceDir g) st1).1 as [pkg|e'|msg];
    [| |by destruct (Hnp msg)]; rewrite bind_run; unfold lift; simpl in *;
    by rewrite Hrender.
Qed.

Lemma sectionFails_Err g schema funcs info :
  sectionFails g schema funcs info →
  ∃ e, renderSections g schema funcs info = Err e.
Proof.
  intros Hfail. rewrite renderSections_inOrder.
  destruct (renderInOrder g schema funcs info) as [render|e|msg] eqn:Hr; [|eauto|].
  - exfalso. apply renderInOrder_Ok in Hr
      as (header & scalars & objects & enums & inputs & entry
          & _ & Hh & Hs & Ho & He & Hi & Hm).
    destruct Hfail as [[e Hhe]|[(t & e & Ht & Hte)|[Hmod [e Hme]]]].
    + congruence.
    + unfold typeSection in Hte.
      assert (∀ (P : introspection.Type_ → string → Prop) k outs,
                Forall2 P (introspection.ofKind k schema) outs →
                introspection.Kind t = k → ∃ o, P t o) as Hget.
      { intros P k outs HF Hk.
        assert (t ∈ introspection.ofKind k schema) as Hin
          by (by apply list_elem_of_filter).
        apply list_elem_of_lookup in Hin as [i Hi'].
        destruct (Forall2_lookup_l _ _ _ i t HF Hi') as (o & _ & HP). eauto. }
      destruct (introspection.Kind t) eqn:Hk.
      * destruct (Hget _ _ _ Hs eq_refl) as [o Hok]. congruence.
      * destruct (Hget _ _ _ Ho eq_refl) as [o Hok]. congruence.
      * destruct (Hget _ _ _ He eq_refl) as [o Hok]. congruence.
      * destruct (Hget _ _ _ Hi eq_refl) as [o Hok]. congruence.
    + rewrite Hmod in Hm. destruct Hm as (m & _ & Hm). congruence.
  - by apply renderInOrder_no_panic in Hr.
Qed.

End GeneratorFacts.


(** * The specification's properties *)

Section Specification.

Context `{!GoLibs, !Embedded, !Templates}.

Import generator modfile.

(** C1.  When a manifest exists at the output directory and parses,
    and the embedded baseline gives each of its paths one version,
    a successful [bootstrapPkg] writes into [mfs] the formatted
    file [newMod] in which: the module statement and the other
    directives are those of the existing manifest, and the module
    path is reported as [ModulePath]; the requirements for paths
    outside the baseline are exactly those of the existing manifest
    (same lines, same order), so each of them is still present;
    and every baseline requirement's path has exactly one line,
    at the baseline's version. *)
Theorem C1_reconcile_existing_manifest g st content sdk info regen st' :
  disk (world st) !! filepath_Join (OutputDir g) "go.mod" = Some content →
  modfile_Parse "go.mod" GoMod = inr sdk →
  oneVersionPerPath (Require_ sdk) = true →
  bootstrapPkg g st = (Ok (info, regen), st') →
  ∃ cur newMod body,
    modfile_Parse "go.mod" content = inr cur
    ∧ modfile_Format newMod = inr body
    ∧ mfs st' !! "go.mod" = Some body
    ∧ Module newMod = Module cur
    ∧ Module cur = Some (ModulePath info)
    ∧ Directives newMod = Directives cur
    ∧ linesOutside (Path <$> Require_ sdk) (Require_ newMod)
      = linesOutside (Path <$> Require_ sdk) (Require_ cur)
    ∧ (∀ r, r ∈ Require_ cur → Path r ∉ Path <$> Require_ sdk → r ∈ Require_ newMod)
    ∧ (∀ b, b ∈ Require_ sdk →
         ∃ r, linesFor (Path b) (Require_ newMod) = [r]
              ∧ Path r = Path b ∧ Version r = Version b).
Proof.
  intros Hdisk Hsdk Hone Hrun.
  apply bootstrapPkg_Ok in Hrun
    as (sdk' & newMod & body & Hsdk' & Hbody & _ & Hmfs & _ & _ & Hman).
  rewrite Hsdk in Hsdk'. injection Hsdk' as <-.
  rewrite Hdisk in Hman. destruct Hman as (cur & Hcur & -> & Hmod).
  destruct (addBaseline_frame cur (Require_ sdk)) as [Hm Hd].
  pose proof (addBaseline_outside (Path <$> Require_ sdk) cur (Require_ sdk)) as Hout.
  exists cur, (addBaseline cur (Require_ sdk)), body. split_and!; try done.
  - rewrite Hmfs. rewrite lookup_insert_ne by done. apply lookup_insert_eq.
  - apply Hout. intros b Hb. by apply list_elem_of_fmap_2.
  - intros r Hr Hnot.
    assert (r ∈ linesOutside (Path <$> Require_ sdk) (Require_ cur)) as Hin
      by (by apply list_elem_of_filter).
    rewrite <-Hout in Hin by (intros b Hb; by apply list_elem_of_fmap_2).
    by apply list_elem_of_filter in Hin as [_ Hin].
  - intros b Hb. apply addBaseline_upsert; [|done].
    intros a c. by apply oneVersionPerPath_spec.
Qed.

(** C2.  A successful [Generate] leaves the world (the real file
    system) as it was.  If the starter file is absent at the output
    directory, the scaffold [baseModuleSource] is in the generated
    layer [mfs] of the overlay and [NeedRegenerate] is true; if it
    is present, the layer holds no starter file and
    [NeedRegenerate] is false. *)
Theorem C2_scaffold_only_when_absent g schema st r st' :
  Generate g schema st = (Ok r, st') →
  world st' = world st
  ∧ Overlay r = [mfs st'; QueryBuilder]
  ∧ (disk (world st) !! filepath_Join (OutputDir g) StarterTemplateFile = None →
       mfs st' !! StarterTemplateFile = Some (baseModuleSource g)
       ∧ NeedRegenerate r = true)
  ∧ (is_Some (disk (world st) !! filepath_Join (OutputDir g) StarterTemplateFile) →
       mfs st' !! StarterTemplateFile = None
       ∧ NeedRegenerate r = false).
Proof.
  intros Hrun.
  apply Generate_starter in Hrun as (Hw & Hov & Hcase).
  split_and!; [done|done|..].
  - intros Hnone. by rewrite Hnone in Hcase.
  - intros [data Hsome]. by rewrite Hsome in Hcase.
Qed.


(** C4.  After a successful [Generate] the generated file is the
    post-processed join of: the header; one section per Scalar,
    then per Object, then per Enum, then per Input, each list in
    the schema's order and rendered by the template of its kind
    (so N + M + K + J sections, and these types are the schema's
    types, each once); and one module entry-point section when a
    module name is configured, none otherwise.  Every Object is
    rendered with the flag [isModuleCode], which is true exactly
    when a module name is configured. *)
Theorem C4_sections_in_fixed_order g schema st r st' :
  Generate g schema st = (Ok r, st') →
  ∃ info header scalars objects enums inputs entry formatted,
    let funcs := GoTemplateFuncs schema (ModuleName g) (loadedPkg (SourceDir g) st) in
    layerfs_ReadFile (Overlay r) ClientGenFile = Some formatted
    ∧ postProcess g (world st)
        ([header] ++ scalars ++ objects ++ enums ++ inputs ++ entry)%list
      = Ok formatted
    ∧ tmpl_Header funcs (info, schema) = inr header
    ∧ Forall2 (fun t o => tmpl_Scalar funcs t = inr o)
              (introspection.ofKind introspection.SCALAR schema) scalars
    ∧ Forall2 (fun t o => tmpl_Object funcs (t, isModuleCode g) = inr o)
              (introspection.ofKind introspection.OBJECT schema) objects
    ∧ Forall2 (fun t o => tmpl_Enum funcs t = inr o)
              (introspection.ofKind introspection.ENUM schema) enums
    ∧ Forall2 (fun t o => tmpl_Input funcs t = inr o)
              (introspection.ofKind introspection.INPUT_OBJECT schema) inputs
    ∧ length (scalars ++ objects ++ enums ++ inputs)%list
      = (length (introspection.ofKind introspection.SCALAR schema)
         + length (introspection.ofKind introspection.OBJECT schema)
         + length (introspection.ofKind introspection.ENUM schema)
         + length (introspection.ofKind introspection.INPUT_OBJECT schema))%nat
    ∧ (introspection.ofKind introspection.SCALAR schema
         ++ introspection.ofKind introspection.OBJECT schema
         ++ introspection.ofKind introspection.ENUM schema
         ++ introspection.ofKind introspection.INPUT_OBJECT schema)%list
      ≡ₚ introspection.Types schema
    ∧ (isModuleCode g = true ↔ ModuleName g ≠ EmptyString)
    ∧ (ModuleName g ≠ EmptyString →
         ∃ m, entry = [m] ∧ tmpl_Module funcs (schema, SourceDir g) = inr m)
    ∧ (ModuleName g = EmptyString → entry = []).
Proof.
  intros Hrun.
  apply Generate_Ok in Hrun
    as (info & regen & st1 & render & formatted & _ & Hrender & Hpost & _ & Hfile & _ & ->).
  rewrite renderSections_inOrder in Hrender.
  apply renderInOrder_Ok in Hrender
    as (header & scalars & objects & enums & inputs & entry
        & -> & Hh & Hs & Ho & He & Hi & Hm).
  assert (isModuleCode g = true ↔ ModuleName g ≠ EmptyString) as Hflag.
  { unfold isModuleCode. destruct (String.eqb_spec (ModuleName g) EmptyString); naive_solver. }
  exists info, header, scalars, objects, enums, inputs, entry, formatted.
  simpl. rewrite Hfile. split_and!; try done.
  - rewrite !length_app.
    apply Forall2_length in Hs, Ho, He, Hi. lia.
  - apply ofKind_partition.
  - intros Hne. apply Hflag in Hne. by rewrite Hne in Hm.
  - intros Heq. destruct (isModuleCode g) eqn:Hmc; [|done].
    by apply Hflag in Heq.
Qed.

(** C5, as amended.  The overlay of a successful [Generate] is the
    generated layer [mfs] over the embedded [QueryBuilder] file
    system: a file is read from [mfs] and, failing that, from
    [QueryBuilder].  The post-generation commands are the one
    command [go mod tidy], and [NeedRegenerate] is the flag that
    [bootstrapPkg] returned. *)
Theorem C5_result_composition g schema st r st' :
  Generate g schema st = (Ok r, st') →
  Overlay r = [mfs st'; QueryBuilder]
  ∧ (∀ name, layerfs_ReadFile (Overlay r) name =
             match mfs st' !! name with
             | Some data => Some data
             | None => QueryBuilder !! name
             end)
  ∧ PostCommands r = [["go"; "mod"; "tidy"]]
  ∧ ∃ info regen st1,
      bootstrapPkg g (mkState ∅ (world st)) = (Ok (info, regen), st1)
      ∧ NeedRegenerate r = regen.
Proof.
  intros Hrun.
  apply Generate_Ok in Hrun
    as (info & regen & st1 & render & formatted & Hboot & _ & _ & _ & _ & _ & ->).
  simpl. split_and!; try done.
  - intros name. by destruct (mfs st' !! name), (QueryBuilder !! name).
  - by exists info, regen, st1.
Qed.


(** C7.  If the bootstrap succeeds and some section template fails
    to render (the header, the template of some type of the
    schema, or the module entry point when a module name is
    configured), [Generate] returns an error and no result; the
    in-memory file system then holds no generated file, and the
    world is as it was. *)
Theorem C7_render_failure_aborts g schema st info regen st1 :
  bootstrapPkg g (mkState ∅ (world st)) = (Ok (info, regen), st1) →
  sectionFails g schema
    (GoTemplateFuncs schema (ModuleName g) (loadedPkg (SourceDir g) st)) info →
  ∃ e, Generate g schema st = (Err e, st1)
       ∧ mfs st1 !! ClientGenFile = None
       ∧ world st1 = world st.
Proof.
  intros Hboot Hfail.
  apply sectionFails_Err in Hfail as [e Hrender].
  exists e. destruct (bootstrapPkg_no_client _ _ _ _ _ Hboot) as [Hnone Hw].
  split_and!; [|done|done].
  by apply Generate_render_fails with info regen.
Qed.

(** C9.  When no manifest exists at the output directory, a
    successful [bootstrapPkg] writes a manifest whose module path
    is [ToKebab] of the module name, also reported as
    [ModulePath], and whose requirements are, path for path and
    version for version, those of the embedded baseline, each path
    once; the scaffold, written when the starter file is absent,
    declares the type [ToCamel] of the same name.  For the name
    [My Cool Thing] these are [my-cool-thing] and
    [MyCoolThing]. *)
Theorem C9_synthesized_manifest_and_type g st sdk info regen st' :
  disk (world st) !! filepath_Join (OutputDir g) "go.mod" = None →
  modfile_Parse "go.mod" GoMod = inr sdk →
  bootstrapPkg g st = (Ok (info, regen), st') →
  (∃ newMod body,
     modfile_Format newMod = inr body
     ∧ mfs st' !! "go.mod" = Some body
     ∧ Module newMod = Some (strcase.ToKebab (ModuleName g))
     ∧ ModulePath info = strcase.ToKebab (ModuleName g)
     ∧ NoDup (Path <$> Require_ newMod)
     ∧ ∀ p v, (∃ r, r ∈ Require_ newMod ∧ Path r = p ∧ Version r = v) ↔
              (∃ b, b ∈ Require_ sdk ∧ Path b = p ∧ Version b = v))
  ∧ (regen = true → mfs st' !! StarterTemplateFile = Some (baseModuleSource g))
  ∧ baseModuleSource g =
      "package main" ++ NL ++ NL ++ "import (" ++ NL
      ++ TAB ++ DQ ++ "context" ++ DQ ++ NL ++ ")" ++ NL ++ NL
      ++ "type " ++ strcase.ToCamel (ModuleName g) ++ " struct {}" ++ NL ++ NL
      ++ "func (m *" ++ strcase.ToCamel (ModuleName g)
      ++ ") MyFunction(ctx context.Context, stringArg string) ("
      ++ "*Container, error) {" ++ NL
      ++ TAB ++ "return dag.Container().From(" ++ DQ ++ "alpine:latest" ++ DQ
      ++ ").WithExec([]string{" ++ DQ ++ "echo" ++ DQ ++ ", stringArg}).Sync(ctx)" ++ NL
      ++ "}" ++ NL
  ∧ strcase.ToKebab "My Cool Thing" = "my-cool-thing"
  ∧ strcase.ToCamel "My Cool Thing" = "MyCoolThing".
Proof.
  intros Hdisk Hsdk Hrun.
  apply bootstrapPkg_Ok in Hrun
    as (sdk' & newMod & body & Hsdk' & Hbody & _ & Hmfs & _ & _ & Hman).
  rewrite Hsdk in Hsdk'. injection Hsdk' as <-.
  rewrite Hdisk in Hman. destruct Hman as [Hpath Hset].
  apply SetRequire_fresh in Hset as (Hmod & _ & Hnodup & Hreqs).
  split_and!; try done.
  - exists newMod, body. split_and!; try done.
    rewrite Hmfs. rewrite lookup_insert_ne by done. apply lookup_insert_eq.
  - intros ->. rewrite Hmfs. rewrite !lookup_insert_ne by done. apply lookup_insert_eq.
Qed.

(** C10.  When the starter file is absent, a successful
    [bootstrapPkg] writes the scaffold and returns the flag true,
    whatever the module name is.  With the empty module name the
    scaffold's type name is empty (it declares [type  struct {}]),
    and the manifest synthesized when none exists has the empty
    module path. *)
Theorem C10_scaffold_without_module_name g st info regen st' :
  disk (world st) !! filepath_Join (OutputDir g) StarterTemplateFile = None →
  bootstrapPkg g st = (Ok (info, regen), st') →
  regen = true
  ∧ mfs st' !! StarterTemplateFile = Some (baseModuleSource g)
  ∧ (ModuleName g = EmptyString →
       strcase.ToCamel (ModuleName g) = EmptyString
       ∧ baseModuleSource g =
           "package main" ++ NL ++ NL ++ "import (" ++ NL
           ++ TAB ++ DQ ++ "context" ++ DQ ++ NL ++ ")" ++ NL ++ NL
           ++ "type  struct {}" ++ NL ++ NL
           ++ "func (m *) MyFunction(ctx context.Context, stringArg string) ("
           ++ "*Container, error) {" ++ NL
           ++ TAB ++ "return dag.Container().From(" ++ DQ ++ "alpine:latest" ++ DQ
           ++ ").WithExec([]string{" ++ DQ ++ "echo" ++ DQ ++ ", stringArg}).Sync(ctx)" ++ NL
           ++ "}" ++ NL
       ∧ (disk (world st) !! filepath_Join (OutputDir g) "go.mod" = None →
            ModulePath info = EmptyString
            ∧ ∃ newMod body,
                modfile_Format newMod = inr body
                ∧ mfs st' !! "go.mod" = Some body
                ∧ Module newMod = Some EmptyString)).
Proof.
  intros Hdisk Hrun.
  apply bootstrapPkg_Ok in Hrun
    as (sdk & newMod & body & Hsdk & Hbody & _ & Hmfs & Hregen & _ & Hman).
  rewrite Hdisk in Hregen. subst regen.
  split_and!; [done| |].
  - rewrite Hmfs. rewrite !lookup_insert_ne by done. apply lookup_insert_eq.
  - intros Hname. unfold baseModuleSource. rewrite Hname.
    split_and!; [done|done|].
    intros Hnomod. rewrite Hnomod, Hname in Hman.
    change (strcase.ToKebab EmptyString) with EmptyString in Hman.
    destruct Hman as [Hpath Hset].
    apply SetRequire_fresh in Hset as (Hmod & _).
    split; [done|]. exists newMod, body. split_and!; try done.
    rewrite Hmfs. rewrite lookup_insert_ne by done. apply lookup_insert_eq.
Qed.

End Specification.

(** * The properties on a concrete workspace *)

Section Examples.

Import generator Fixture.

Example ToKebab_words :
  strcase.ToKebab "  JSONData2go fooBar " = "json-data-2-go-foo-bar".
Proof. reflexivity. Qed.

Example ToCamel_words :
  strcase.ToCamel " foo_bar HTTPServer 9lives " = "FooBarHttpserver9Lives".
Proof. reflexivity. Qed.

Example AddRequire_upserts :
  modfile.Require_ (modfile.AddRequire userMod "github.com/Khan/genqlient" "v0.6.0")
  = [modfile.mkReq "github.com/Khan/genqlient" "v0.6.0" false;
     modfile.mkReq "github.com/stretchr/testify" "v1.8.4" false].
Proof. reflexivity. Qed.

Example SetRequire_conflict_panics :
  modfile.SetRequire modfile.empty
    [modfile.mkReq "a" "v1" false; modfile.mkReq "a" "v2" false] = None.
Proof. reflexivity. Qed.

(** A manifest without a [module] line: [currentMod.Module] is nil. *)
Example bootstrapPkg_no_module_line :
  (bootstrapPkg cfg (start anonDisk)).1 = Panic nilDeref.
Proof. vm_compute. reflexivity. Qed.

(** A manifest that does not parse is a fatal error. *)
Example Generate_malformed_manifest :
  (Generate cfg schema (start malformedDisk)).1
  = Err "bootstrap package: parse go.mod: go.mod: malformed module file".
Proof. vm_compute. reflexivity. Qed.

Lemma C1_witness :
  ∃ newMod body,
    modfile_Format newMod = inr body
    ∧ mfs (bootstrapPkg cfg (start userDisk)).2 !! "go.mod" = Some body
    ∧ modfile.Module newMod = Some "example.com/app".
Proof.
  destruct (C1_reconcile_existing_manifest cfg (start userDisk) (printFile userMod)
              baseline (mkInfo "main" "example.com/app") true
              (bootstrapPkg cfg (start userDisk)).2)
    as (cur & newMod & body & Hcur & Hbody & Hmfs & Hmod & Hpath & _).
  - vm_compute. reflexivity.
  - vm_compute. reflexivity.
  - vm_compute. reflexivity.
  - vm_compute. reflexivity.
  - exists newMod, body. split; [exact Hbody|]. split; [exact Hmfs|].
    rewrite Hmod. exact Hpath.
Defined.

Lemma C2_witness :
  world (Generate cfg schema (start emptyDisk)).2 = world (start emptyDisk)
  ∧ mfs (Generate cfg schema (start emptyDisk)).2 !! StarterTemplateFile
    = Some (baseModuleSource cfg).
Proof.
  destruct (C2_scaffold_only_when_absent cfg schema (start emptyDisk)
              (mkGenerated [mfs (Generate cfg schema (start emptyDisk)).2; QueryBuilder]
                           [["go"; "mod"; "tidy"]] true)
              (Generate cfg schema (start emptyDisk)).2)
    as (Hw & _ & Habsent & _).
  - vm_compute. reflexivity.
  - split; [exact Hw|]. apply Habsent. vm_compute. reflexivity.
Defined.



Lemma C4_witness :
  ∃ formatted,
    layerfs_ReadFile [mfs (Generate cfg schema (start emptyDisk)).2; QueryBuilder] ClientGenFile
    = Some formatted.
Proof.
  destruct (C4_sections_in_fixed_order cfg schema (start emptyDisk)
              (mkGenerated [mfs (Generate cfg schema (start emptyDisk)).2; QueryBuilder]
                           [["go"; "mod"; "tidy"]] true)
              (Generate cfg schema (start emptyDisk)).2)
    as (info & header & scalars & objects & enums & inputs & entry & formatted & Hfile & _).
  - vm_compute. reflexivity.
  - exists formatted. exact Hfile.
Defined.

Lemma C5_counterexample :
  ∃ r st',
    Generate cfg schema (start userDisk) = (Ok r, st')
    ∧ disk (world (start userDisk)) !! filepath_Join (OutputDir cfg) "notes.txt"
      = Some "remember the milk"
    ∧ mfs st' !! "notes.txt" = None
    ∧ layerfs_ReadFile (Overlay r) "notes.txt" = None.
Proof.
  eexists _, _. split; [vm_compute; reflexivity|].
  split_and!; vm_compute; reflexivity.
Qed.

Lemma C5_witness :
  PostCommands (mkGenerated [mfs (Generate cfg schema (start userDisk)).2; QueryBuilder]
                            [["go"; "mod"; "tidy"]] true)
  = [["go"; "mod"; "tidy"]].
Proof.
  destruct (C5_result_composition cfg schema (start userDisk)
              (mkGenerated [mfs (Generate cfg schema (start userDisk)).2; QueryBuilder]
                           [["go"; "mod"; "tidy"]] true)
              (Generate cfg schema (start userDisk)).2)
    as (_ & _ & Hpost & _).
  - vm_compute. reflexivity.
  - exact Hpost.
Defined.


Lemma C7_witness :
  ∃ e, Generate cfg badSchema (start userDisk)
       = (Err e, (bootstrapPkg cfg (mkState ∅ (world (start userDisk)))).2).
Proof.
  destruct (C7_render_failure_aborts cfg badSchema (start userDisk)
              (mkInfo "main" "example.com/app") true
              (bootstrapPkg cfg (mkState ∅ (world (start userDisk)))).2)
    as (e & Hrun & _).
  - vm_compute. reflexivity.
  - right. left.
    exists (introspection.mkType introspection.ENUM "NetworkProtocol" EmptyString),
           "template: enum: no description for NetworkProtocol".
    split; [|reflexivity].
    apply list_elem_of_In. simpl. tauto.
  - exists e. exact Hrun.
Defined.

Lemma C9_witness :
  ∃ newMod body,
    modfile_Format newMod = inr body
    ∧ mfs (bootstrapPkg cfg (start emptyDisk)).2 !! "go.mod" = Some body
    ∧ modfile.Module newMod = Some "my-cool-thing".
Proof.
  destruct (C9_synthesized_manifest_and_type cfg (start emptyDisk) baseline
              (mkInfo "main" "my-cool-thing") true
              (bootstrapPkg cfg (start emptyDisk)).2)
    as ((newMod & body & Hbody & Hmfs & Hmod & _) & _).
  - vm_compute. reflexivity.
  - vm_compute. reflexivity.
  - vm_compute. reflexivity.
  - exists newMod, body. split; [exact Hbody|]. split; [exact Hmfs|]. exact Hmod.
Defined.

Lemma C10_witness :
  mfs (bootstrapPkg clientCfg (start emptyDisk)).2 !! StarterTemplateFile
  = Some (baseModuleSource clientCfg).
Proof.
  destruct (C10_scaffold_without_module_name clientCfg (start emptyDisk)
              (mkInfo "main" EmptyString) true
              (bootstrapPkg clientCfg (start emptyDisk)).2)
    as (_ & Hscaffold & _).
  - vm_compute. reflexivity.
  - vm_compute. reflexivity.
  - exact Hscaffold.
Defined.

End Examples.

(** * Further properties *)

(** ** Bytes that the case conversions write *)

Section ByteFacts.

Ltac by_byte c :=
  destruct c as [[] [] [] [] [] [] [] []]; vm_compute; try reflexivity; try discriminate;
  intuition (try discriminate; try congruence).

Lemma upper_low c : isLow c = true → isCap (upper c) = true.
Proof. by_byte c. Qed.

Lemma lower_cap c : isCap c = true → isLow (lower c) = true.
Proof. by_byte c. Qed.

Lemma allBytes_app P a b : allBytes P (a ++ b) = allBytes P a && allBytes P b.
Proof.
  induction a as [|c a IH]; [done|].
  change (String c a ++ b) with (String c (a ++ b)). simpl.
  by rewrite IH, andb_assoc.
Qed.

Lemma isAlnum_upper c : isLow c = true → isAlnum (upper c) = true.
Proof. intros H. unfold isAlnum. by rewrite (upper_low c H). Qed.

Lemma isAlnum_lower c : isCap c = true → isAlnum (lower c) = true.
Proof. intros H. unfold isAlnum. by rewrite (lower_cap c H), orb_true_r. Qed.

Lemma camelLoop_alnum hasAcronym first capNext prevIsCap s :
  allBytes isAlnum (strcase.camelLoop hasAcronym first capNext prevIsCap s) = true.
Proof.
  revert first capNext prevIsCap.
  induction s as [|c s IH]; intros first capNext prevIsCap; [done|].
  cbn [strcase.camelLoop]. cbv zeta.
  destruct (isCap c) eqn:Hcap, (isLow c) eqn:Hlow; cbn [orb].
  - exfalso. revert Hcap Hlow. by_byte c.
  - cbn [allBytes]. rewrite IH, andb_true_r.
    assert (isAlnum c = true) as Hc by (unfold isAlnum; by rewrite Hcap).
    destruct capNext, first, (prevIsCap && true && negb hasAcronym);
      auto using isAlnum_lower.
  - cbn [allBytes]. rewrite IH, andb_true_r.
    assert (isAlnum c = true) as Hc by (unfold isAlnum; by rewrite Hcap, Hlow).
    rewrite andb_false_r. cbn [andb].
    destruct capNext, first; auto using isAlnum_upper.
  - rewrite andb_false_r. cbn [andb].
    assert ((if capNext then c else if first then c else c) = c) as ->
      by (by destruct capNext, first).
    destruct (isNum c) eqn:Hnum; [|apply IH].
    cbn [allBytes]. rewrite IH, andb_true_r.
    unfold isAlnum. by rewrite Hnum, !orb_true_r.
Qed.

Lemma ToCamel_alnum s : allBytes isAlnum (strcase.ToCamel s) = true.
Proof.
  unfold strcase.ToCamel, strcase.toCamelInitCase. cbv zeta.
  destruct (String.eqb_spec (strings.TrimSpace s) EmptyString) as [->|_]; [done|].
  cbn [strcase.loadAcronym strcase.uppercaseAcronym]. apply camelLoop_alnum.
Qed.

(** One step of the kebab loop writes kebab bytes only. *)
Lemma kebabByte_lower c : isCap c = true → kebabByte (lower c) = true.
Proof. by_byte c. Qed.

Lemma kebabByte_plain c :
  isCap c = false → strcase.isSep c = false → kebabByte c = true.
Proof. by_byte c. Qed.

Lemma delimitedLoop_kebab prev s :
  allBytes kebabByte (strcase.delimitedLoop (chr 45) EmptyString false prev s) = true.
Proof.
  revert prev. induction s as [|c s IH]; intros prev; [done|].
  cbn [strcase.delimitedLoop]. cbv zeta.
  set (v := if isLow c && false then upper c else if isCap c && negb false then lower c else c).
  assert (strcase.isSep v = false → kebabByte v = true) as Hv.
  { subst v. rewrite andb_false_r. cbn [negb]. rewrite andb_true_r.
    destruct (isCap c) eqn:Hcap.
    - intros _. by apply kebabByte_lower.
    - by apply kebabByte_plain. }
  assert (allBytes kebabByte
            (if strcase.isSep v && negb (strcase.containsAny v EmptyString)
             then str1 (chr 45) else str1 v) = true) as Hplain.
  { cbn [strcase.containsAny list_ascii_of_string existsb negb]. rewrite andb_true_r.
    destruct (strcase.isSep v) eqn:Hsep; [done|].
    cbn [str1 allBytes]. by rewrite Hv. }
  destruct s as [|next s'].
  - by rewrite allBytes_app, Hplain.
  - destruct (_ || _ || _) eqn:Hchange; [|by rewrite allBytes_app, Hplain, IH].
    assert (strcase.isSep v = false) as Hsep.
    { subst v. revert Hchange. rewrite andb_false_r. cbn [negb]. rewrite andb_true_r.
      clear. destruct (isCap c) eqn:Hcap.
      - intros _. revert Hcap. by_byte c.
      - destruct (isLow c) eqn:Hlow.
        + intros _. revert Hlow. by_byte c.
        + cbn [andb orb]. destruct (isNum c) eqn:Hnum; [|done].
          intros _. revert Hnum. by_byte c. }
    replace (negb match prev with
                  | Some p => negb (String.eqb EmptyString EmptyString)
                              && strcase.containsAny p EmptyString
                  | None => false
                  end) with true by (by destruct prev).
    rewrite !allBytes_app, IH, andb_true_r.
    cbn [str1 allBytes]. rewrite (Hv Hsep).
    by destruct (isCap c && isLow next && _), (isLow c || isNum v || isNum next).
Qed.

Lemma ToKebab_kebab s : allBytes kebabByte (strcase.ToKebab s) = true.
Proof. apply delimitedLoop_kebab. Qed.

Lemma lowOrHyphen_facts c :
  lowOrHyphen c = true →
  isCap c = false ∧ isNum c = false ∧ strings.asciiSpace c = false
  ∧ (∀ b, strings.space2 c b = false) ∧ (∀ a b, strings.space3 c a b = false)
  ∧ (if isLow c then strcase.isSep c = false else c = chr 45).
Proof.
  intros H. split_and!; revert H; by_byte c.
Qed.

Lemma TrimLeftSpace_kebab s :
  allBytes lowOrHyphen s = true → strings.TrimLeftSpace s = s.
Proof.
  destruct s as [|a [|b [|c s]]]; [done|..]; cbn [allBytes];
    intros (Ha & _)%andb_true_iff;
    destruct (lowOrHyphen_facts a Ha) as (_ & _ & Hsp & H2 & H3 & _);
    cbn [strings.TrimLeftSpace]; by rewrite ?Hsp, ?H2, ?H3.
Qed.

Lemma TrimLeftSpaceRev_kebab l :
  forallb lowOrHyphen l = true → strings.TrimLeftSpaceRev l = l.
Proof.
  destruct l as [|a [|b [|c l]]]; [done|..]; cbn [forallb]; intros Hall;
    repeat (apply andb_true_iff in Hall as [? Hall]).
  - destruct (lowOrHyphen_facts a) as (_ & _ & Hsp & _); [done|].
    cbn [strings.TrimLeftSpaceRev]. by rewrite Hsp.
  - destruct (lowOrHyphen_facts a) as (_ & _ & Hsp & _); [done|].
    destruct (lowOrHyphen_facts b) as (_ & _ & _ & H2 & _); [done|].
    cbn [strings.TrimLeftSpaceRev]. by rewrite Hsp, H2.
  - destruct (lowOrHyphen_facts a) as (_ & _ & Hsp & _); [done|].
    destruct (lowOrHyphen_facts b) as (_ & _ & _ & H2 & _); [done|].
    destruct (lowOrHyphen_facts c) as (_ & _ & _ & _ & H3 & _); [done|].
    cbn [strings.TrimLeftSpaceRev]. by rewrite Hsp, H2, H3.
Qed.

Lemma allBytes_forallb P s : allBytes P s = forallb P (list_ascii_of_string s).
Proof. induction s as [|c s IH]; [done|]. simpl. by rewrite IH. Qed.

Lemma TrimSpace_kebab s :
  allBytes lowOrHyphen s = true → strings.TrimSpace s = s.
Proof.
  intros H. unfold strings.TrimSpace, strings.TrimRightSpace.
  rewrite (TrimLeftSpace_kebab s H), TrimLeftSpaceRev_kebab.
  - by rewrite rev_involutive, string_of_list_ascii_of_string.
  - rewrite allBytes_forallb in H. rewrite forallb_forall in *.
    intros x Hx. apply H. by apply in_rev.
Qed.

Lemma delimitedLoop_kebab_id prev s :
  allBytes lowOrHyphen s = true →
  strcase.delimitedLoop (chr 45) EmptyString false prev s = s.
Proof.
  revert prev. induction s as [|c s IH]; intros prev; [done|].
  cbn [allBytes]. intros [Hc Hs]%andb_true_iff.
  destruct (lowOrHyphen_facts c Hc) as (Hcap & Hnum & _ & _ & _ & Hsep).
  cbn [strcase.delimitedLoop]. cbv zeta.
  rewrite Hcap, andb_false_r. cbn [andb]. rewrite Hnum, (IH _ Hs).
  cbn [strcase.containsAny list_ascii_of_string existsb negb]. rewrite andb_true_r.
  assert ((if strcase.isSep c then str1 (chr 45) else str1 c) = str1 c) as ->.
  { destruct (isLow c); [by rewrite Hsep|]. by subst c. }
  destruct s as [|next s']; [done|].
  cbn [allBytes] in Hs. apply andb_true_iff in Hs as [Hn _].
  destruct (lowOrHyphen_facts next Hn) as (Hncap & Hnnum & _).
  rewrite Hncap, Hnnum. cbn [orb andb]. by rewrite andb_false_r.
Qed.

End ByteFacts.

(** ** Merging the baseline again *)

Section ReconcileFacts.

Import modfile.

Lemma addRequireLoop_absent path vers need rs :
  path ∉ Path <$> rs → addRequireLoop path vers need rs = (rs, need).
Proof.
  induction rs as [|r rs IH]; [done|]. rewrite fmap_cons, not_elem_of_cons.
  intros [Hne Hnot]. simpl.
  destruct (String.eqb_spec (Path r) path) as [Heq|_]; [by destruct Hne|].
  by rewrite IH.
Qed.

Lemma linesFor_nil path rs : linesFor path rs = [] → path ∉ Path <$> rs.
Proof.
  unfold linesFor. intros Hnil (r & -> & Hr)%list_elem_of_fmap.
  by apply (filter_nil_not_elem_of _ _ r Hnil).
Qed.

Lemma setVersion_same r : setVersion r (Version r) = r.
Proof. by destruct r. Qed.

Lemma addRequireLoop_settled path vers rs r :
  linesFor path rs = [r] → Version r = vers →
  addRequireLoop path vers true rs = (rs, false).
Proof.
  unfold linesFor. intros Hone Hv.
  induction rs as [|r0 rs IH]; [done|]. simpl.
  rewrite filter_cons in Hone.
  destruct (String.eqb_spec (Path r0) path) as [Heq|Hne].
  - rewrite decide_True in Hone by done. injection Hone as -> Hnil.
    rewrite addRequireLoop_absent by (by apply linesFor_nil).
    by rewrite <-Hv, setVersion_same.
  - rewrite decide_False in Hone by done. by rewrite IH.
Qed.

Lemma AddRequire_settled f path vers r :
  linesFor path (Require_ f) = [r] → Version r = vers →
  AddRequire f path vers = f.
Proof.
  intros Hone Hv. unfold AddRequire.
  rewrite (addRequireLoop_settled _ _ _ _ Hone Hv). by destruct f.
Qed.

Lemma addBaseline_settled f l :
  (∀ b, b ∈ l → ∃ r, linesFor (Path b) (Require_ f) = [r] ∧ Version r = Version b) →
  addBaseline f l = f.
Proof.
  induction l as [|b l IH]; intros Hall; [done|].
  change (addBaseline f (b :: l))
    with (addBaseline (AddRequire f (Path b) (Version b)) l).
  destruct (Hall b) as (r & Hone & Hv); [by left|].
  rewrite (AddRequire_settled f _ _ r Hone Hv).
  apply IH. intros b' Hb'. apply Hall. by right.
Qed.

Lemma addRequireLoop_nodup path vers rs :
  NoDup (Path <$> rs) →
  Path <$> (addRequireLoop path vers true rs).1 = Path <$> rs
  ∧ ((addRequireLoop path vers true rs).2 = true ↔ path ∉ Path <$> rs).
Proof.
  induction rs as [|r rs IH]; intros Hnodup.
  - split; [done|]. split; [|done]. intros _. apply not_elem_of_nil.
  - rewrite fmap_cons in Hnodup. apply NoDup_cons in Hnodup as [Hr Hrs].
    cbn [addRequireLoop]. destruct (String.eqb_spec (Path r) path) as [Heq|Hne].
    + subst path. rewrite addRequireLoop_absent by done. cbn [fst snd].
      split; [by rewrite !fmap_cons|]. split; [done|].
      intros Hnot. destruct Hnot. rewrite fmap_cons. by left.
    + destruct (IH Hrs) as [IH1 IH2].
      destruct (addRequireLoop path vers true rs) as [out n]. cbn [fst snd] in *.
      rewrite !fmap_cons, IH1. split; [done|].
      rewrite IH2, not_elem_of_cons. split; [intros ?; split; [congruence|done]|by intros [_ ?]].
Qed.

Lemma AddRequire_nodup f path vers :
  NoDup (Path <$> Require_ f) →
  NoDup (Path <$> Require_ (AddRequire f path vers))
  ∧ ∃ added, Path <$> Require_ (AddRequire f path vers)
             = ((Path <$> Require_ f) ++ added)%list
             ∧ added ⊆ [path].
Proof.
  intros Hnodup. unfold AddRequire.
  destruct (addRequireLoop_nodup path vers (Require_ f) Hnodup) as [Hpaths Hflag].
  destruct (addRequireLoop path vers true (Require_ f)) as [rs need]. simpl in *.
  destruct need; simpl.
  - rewrite fmap_app, Hpaths. simpl. split.
    + apply NoDup_app. split_and!; [done| |apply NoDup_singleton].
      intros x Hx ->%list_elem_of_singleton. by apply Hflag.
    + by exists [path].
  - rewrite Hpaths. split; [done|]. exists []. split; [by rewrite app_nil_r|].
    apply list_subseteq_nil.
Qed.

End ReconcileFacts.

(** ** Writes and observations, step by step *)

Section ConfinedFacts.

Lemma confined_ret names {A} (a : A) : confined names (mret a).
Proof. by intros st name Hn. Qed.

Lemma confined_bind names {A B} (m : M A) (f : A → M B) :
  confined names m → (∀ a, confined names (f a)) → confined names (m ≫= f).
Proof.
  intros Hm Hf st name Hn. rewrite bind_run. specialize (Hm st name Hn).
  destruct (m st) as [[a|e|msg] st1]; simpl in *; [|done|done].
  by rewrite (Hf a st1 name Hn).
Qed.

Lemma confined_lift names {A} (r : result A) : confined names (lift r).
Proof. by intros st name Hn. Qed.

Lemma confined_panic names {A} msg : confined names (@panic A msg).
Proof. by intros st name Hn. Qed.

Lemma confined_WriteFile names file data :
  file ∈ names → confined names (WriteFile file data).
Proof.
  intros Hin st name Hn. unfold WriteFile. destruct (_ || _); [done|].
  simpl. rewrite lookup_insert_ne; [done|]. intros Heq. subst. by apply Hn.
Qed.

Lemma confined_Stat names path : confined names (os_Stat path).
Proof. intros st name Hn. unfold os_Stat. by destruct (disk _ !! _). Qed.

Lemma confined_ReadFile names path : confined names (os_ReadFile path).
Proof. intros st name Hn. unfold os_ReadFile. by destruct (disk _ !! _). Qed.

Lemma confined_readMfs names : confined names readMfs.
Proof. by intros st name Hn. Qed.

Lemma confined_attempt names {A} (m : M A) : confined names m → confined names (attempt m).
Proof.
  intros Hm st name Hn. unfold attempt. specialize (Hm st name Hn).
  by destruct (m st) as [[a|e|msg] st1].
Qed.

Lemma confined_wrapM names {A} prefix (m : M A) :
  confined names m → confined names (wrapM prefix m).
Proof.
  intros Hm st name Hn. unfold wrapM. specialize (Hm st name Hn).
  by destruct (m st) as [r st1].
Qed.

Lemma confined_loadPackage names dir : confined names (loadPackage dir).
Proof. intros st name Hn. by rewrite loadPackage_state. Qed.

End ConfinedFacts.

Section ObservesFacts.

Variables stats reads dirs procs : list string.

Lemma observes_ret {A} (a : A) : observes stats reads dirs procs (mret a).
Proof. by intros st1 st2 Hagree. Qed.

Lemma observes_bind {A B} (m : M A) (f : A → M B) :
  observes stats reads dirs procs m → (∀ a, observes stats reads dirs procs (f a)) → observes stats reads dirs procs (m ≫= f).
Proof.
  intros Hm Hf st1 st2 Hagree. rewrite !bind_run.
  destruct (Hm st1 st2 Hagree) as [Hr Hs].
  destruct (m st1) as [r1 s1], (m st2) as [r2 s2]. simpl in *. subst r2.
  destruct r1 as [a|e|msg]; [|done|done]. by apply Hf.
Qed.

Lemma observes_lift {A} (r : result A) : observes stats reads dirs procs (lift r).
Proof. by intros st1 st2 Hagree. Qed.

Lemma observes_panic {A} msg : observes stats reads dirs procs (@panic A msg).
Proof. by intros st1 st2 Hagree. Qed.

Lemma observes_WriteFile name data : observes stats reads dirs procs (WriteFile name data).
Proof.
  intros st1 st2 (Hm & Hrest). unfold WriteFile.
  destruct (_ || _); simpl; [done|]. by rewrite Hm.
Qed.

Lemma observes_memfs_New : observes stats reads dirs procs memfs_New.
Proof. by intros st1 st2 (Hm & Hrest). Qed.

Lemma observes_readMfs : observes stats reads dirs procs readMfs.
Proof. intros st1 st2 Hagree. split; [|done]. simpl. by destruct Hagree as [-> _]. Qed.

Lemma observes_Stat path : path ∈ stats → observes stats reads dirs procs (os_Stat path).
Proof.
  intros Hin st1 st2 Hagree. pose proof Hagree as (_ & Hstat & _).
  specialize (Hstat path Hin). unfold os_Stat.
  destruct (disk (world st1) !! path), (disk (world st2) !! path); try done.
  - destruct Hstat as [Hs _]. by destruct Hs.
  - destruct Hstat as [_ Hs]. by destruct Hs.
Qed.

Lemma observes_ReadFile path : path ∈ reads → observes stats reads dirs procs (os_ReadFile path).
Proof.
  intros Hin st1 st2 Hagree. pose proof Hagree as (_ & _ & Hread & _).
  unfold os_ReadFile. rewrite (Hread path Hin).
  by destruct (disk (world st2) !! path).
Qed.

Lemma observes_loadPackage dir : dir ∈ dirs → observes stats reads dirs procs (loadPackage dir).
Proof.
  intros Hin st1 st2 Hagree. pose proof Hagree as (_ & _ & _ & Hload & _).
  unfold loadPackage. rewrite (Hload dir Hin).
  by destruct (packages_Load (world st2) dir) as [e|[|pkg [|pkg' pkgs]]].
Qed.

Lemma observes_attempt {A} (m : M A) : observes stats reads dirs procs m → observes stats reads dirs procs (attempt m).
Proof.
  intros Hm st1 st2 Hagree. unfold attempt.
  destruct (Hm st1 st2 Hagree) as [Hr Hs].
  destruct (m st1) as [r1 s1], (m st2) as [r2 s2]. simpl in *. subst r2.
  by destruct r1.
Qed.

Lemma observes_wrapM {A} prefix (m : M A) : observes stats reads dirs procs m → observes stats reads dirs procs (wrapM prefix m).
Proof.
  intros Hm st1 st2 Hagree. unfold wrapM.
  destruct (Hm st1 st2 Hagree) as [Hr Hs].
  destruct (m st1) as [r1 s1], (m st2) as [r2 s2]. simpl in *. by subst r2.
Qed.

Lemma observes_observe {A} (f : World → result A) :
  (∀ st1 st2, agree stats reads dirs procs st1 st2 → f (world st1) = f (world st2)) →
  observes stats reads dirs procs (observe f).
Proof. intros Hf st1 st2 Hagree. split; [|done]. simpl. by apply Hf. Qed.

End ObservesFacts.

Ltac in_list := repeat first [apply list_elem_of_here | apply list_elem_of_further].

Ltac confined_step :=
  match goal with
  | |- confined _ (mbind _ _) => apply confined_bind; [|intros ?]
  | |- confined _ (mret _) => apply confined_ret
  | |- confined _ (lift _) => apply confined_lift
  | |- confined _ (panic _) => apply confined_panic
  | |- confined _ (WriteFile _ _) => apply confined_WriteFile; in_list
  | |- confined _ (os_Stat _) => apply confined_Stat
  | |- confined _ (os_ReadFile _) => apply confined_ReadFile
  | |- confined _ readMfs => apply confined_readMfs
  | |- confined _ (attempt _) => apply confined_attempt
  | |- confined _ (loadPackage _) => apply confined_loadPackage
  | |- confined _ (match ?x with _ => _ end) => destruct x
  end.

Ltac observes_step :=
  match goal with
  | |- observes _ _ _ _ (mbind _ _) => apply observes_bind; [|intros ?]
  | |- observes _ _ _ _ (mret _) => apply observes_ret
  | |- observes _ _ _ _ (lift _) => apply observes_lift
  | |- observes _ _ _ _ (panic _) => apply observes_panic
  | |- observes _ _ _ _ (WriteFile _ _) => apply observes_WriteFile
  | |- observes _ _ _ _ memfs_New => apply observes_memfs_New
  | |- observes _ _ _ _ readMfs => apply observes_readMfs
  | |- observes _ _ _ _ (os_Stat _) => apply observes_Stat; in_list
  | |- observes _ _ _ _ (os_ReadFile _) => apply observes_ReadFile; in_list
  | |- observes _ _ _ _ (loadPackage _) => apply observes_loadPackage; in_list
  | |- observes _ _ _ _ (attempt _) => apply observes_attempt
  | |- observes _ _ _ _ (wrapM _ _) => apply observes_wrapM
  | |- observes _ _ _ _ (match ?x with _ => _ end) => destruct x
  end.

(** ** The generator's other behaviour *)

Section Further.

Context `{!GoLibs, !Embedded, !Templates}.

Import generator modfile.

Lemma loadPackage_Ok_iff dir st pkg :
  (loadPackage dir st).1 = Ok pkg ↔ packages_Load (world st) dir = inr [pkg].
Proof.
  unfold loadPackage.
  destruct (packages_Load (world st) dir) as [e|[|p [|p' pkgs]]]; simpl; try done.
  split; by intros [= ->].
Qed.

Lemma bootstrapPkg_confined g :
  confined [StarterTemplateFile; "go.mod"; "go.sum"] (bootstrapPkg g).
Proof. unfold bootstrapPkg. cbv zeta. repeat confined_step. Qed.

(** Run [bootstrapPkg] up to the parse of the embedded [go.mod], when
    the probe does not stop at a package without module information. *)
Ltac run_binds :=
  repeat first
    [ rewrite bind_run
    | rewrite WriteFile_root by reflexivity
    | progress cbn [mret M_ret]
    | progress cbv beta iota ].

Ltac enter_bootstrap g st Hprobe :=
  unfold bootstrapPkg; cbv zeta; rewrite bind_run, attempt_load_run;
  let Hnp := fresh "Hnp" in
  let Hpkg := fresh "Hpkg" in
  pose proof (loadPackage_no_panic (OutputDir g) st) as Hnp;
  destruct (loadPackage (OutputDir g) st).1 as [?pkg|?e|?msg] eqn:Hpkg;
  [apply loadPackage_Ok_iff in Hpkg; destruct (Hprobe _ Hpkg) as [?path ->]
  |
  |by edestruct Hnp];
  run_binds; unfold os_Stat;
  destruct (disk (world st) !! filepath_Join (OutputDir g) StarterTemplateFile);
  run_binds; unfold lift.

Lemma bootstrapPkg_baseline_error g st e :
  (∀ pkg, packages_Load (world st) (OutputDir g) = inr [pkg] →
          is_Some (packages.Module pkg)) →
  modfile_Parse "go.mod" GoMod = inl e →
  (bootstrapPkg g st).1 = Err ("parse embedded go.mod: " ++ e).
Proof.
  intros Hprobe Hsdk. enter_bootstrap g st Hprobe; by rewrite Hsdk.
Qed.

Lemma bootstrapPkg_manifest_error g st sdk content e :
  (∀ pkg, packages_Load (world st) (OutputDir g) = inr [pkg] →
          is_Some (packages.Module pkg)) →
  modfile_Parse "go.mod" GoMod = inr sdk →
  disk (world st) !! filepath_Join (OutputDir g) "go.mod" = Some content →
  modfile_Parse "go.mod" content = inl e →
  (bootstrapPkg g st).1 = Err ("parse go.mod: " ++ e).
Proof.
  intros Hprobe Hsdk Hdisk Hparse.
  enter_bootstrap g st Hprobe; rewrite Hsdk; cbn [ofSum wrapErr];
    run_binds; unfold os_ReadFile; cbn [world disk]; rewrite Hdisk;
    run_binds; unfold lift; by rewrite Hparse.
Qed.

Lemma Generate_bootstrap_fails g schema st e :
  (bootstrapPkg g (mkState ∅ (world st))).1 = Err e →
  (Generate g schema st).1 = Err ("bootstrap package: " ++ e).
Proof.
  intros Hboot. unfold Generate. rewrite (bind_run memfs_New). simpl.
  rewrite (bind_run (wrapM _ _)). unfold wrapM.
  destruct (bootstrapPkg g _) as [r st1]. simpl in Hboot. by subst r.
Qed.

Lemma Generate_post_fails g schema st info regen st1 render e :
  bootstrapPkg g (mkState ∅ (world st)) = (Ok (info, regen), st1) →
  renderSections g schema
    (GoTemplateFuncs schema (ModuleName g) (loadedPkg (SourceDir g) st)) info = Ok render →
  postProcess g (world st) render = Err e →
  Generate g schema st = (Err e, st1).
Proof.
  intros Hboot Hrender Hpost.
  destruct (bootstrapPkg_no_client _ _ _ _ _ Hboot) as [_ Hw].
  unfold Generate. rewrite (bind_run memfs_New). simpl.
  rewrite (bind_run (wrapM _ _)). unfold wrapM. rewrite Hboot. simpl.
  rewrite bind_run, attempt_load_run.
  unfold loadedPkg in Hrender. rewrite <-(loadPackage_world _ st1 st Hw) in Hrender.
  pose proof (loadPackage_no_panic (SourceDir g) st1) as Hnp.
  destruct (loadPackage (SourceDir g) st1).1 as [pkg|e'|msg];
    [| |by destruct (Hnp msg)]; rewrite bind_run; unfold lift; simpl in *;
    rewrite Hrender, bind_run; unfold observe; rewrite Hw; by rewrite Hpost.
Qed.

(** X2.  When exactly one package is found at the output directory,
    its name is the package name that a successful [bootstrapPkg]
    reports; if that package has no module information, the read of
    [modPkg.Module.Path] panics before anything is written. *)
Theorem bootstrapPkg_found_package g st pkg :
  packages_Load (world st) (OutputDir g) = inr [pkg] →
  (packages.Module pkg = None → bootstrapPkg g st = (Panic nilDeref, st))
  ∧ (∀ info regen st', bootstrapPkg g st = (Ok (info, regen), st') →
       PackageName info = packages.Name pkg).
Proof.
  intros Hload.
  assert ((loadPackage (OutputDir g) st).1 = Ok pkg) as Hpkg
    by (unfold loadPackage; by rewrite Hload).
  split.
  - intros Hnil. unfold bootstrapPkg. cbv zeta.
    rewrite bind_run, attempt_load_run, Hpkg, bind_run. by rewrite Hnil.
  - intros info regen st' Hboot.
    apply bootstrapPkg_Ok in Hboot as (_ & _ & _ & _ & _ & _ & _ & _ & Hname & _).
    by rewrite Hpkg in Hname.
Qed.

(** X3.  Whatever its outcome, [bootstrapPkg] leaves the world as it
    is and writes in [mfs] under no name but [main.go], [go.mod] and
    [go.sum]; when it succeeds, [go.sum] holds the embedded sums and
    [go.mod] is there. *)
Theorem bootstrapPkg_writes_three_files g st :
  world (bootstrapPkg g st).2 = world st
  ∧ (∀ name, name ∉ [StarterTemplateFile; "go.mod"; "go.sum"] →
       mfs (bootstrapPkg g st).2 !! name = mfs st !! name)
  ∧ (∀ info regen, (bootstrapPkg g st).1 = Ok (info, regen) →
       mfs (bootstrapPkg g st).2 !! "go.sum" = Some GoSum
       ∧ is_Some (mfs (bootstrapPkg g st).2 !! "go.mod")).
Proof.
  split_and!.
  - apply bootstrapPkg_world.
  - intros name. apply bootstrapPkg_confined.
  - intros info regen Hok.
    destruct (bootstrapPkg g st) as [r st'] eqn:Hboot. simpl in Hok. subst r.
    apply bootstrapPkg_Ok in Hboot as (_ & _ & body & _ & _ & _ & Hmfs & _).
    simpl. rewrite Hmfs. split; [apply lookup_insert_eq|].
    rewrite lookup_insert_ne by done. rewrite lookup_insert_eq. eauto.
Qed.

(** X4.  An existing manifest that does not parse makes [Generate]
    fail with the parser's error under the prefixes
    [bootstrap package: ] and [parse go.mod: ] (the probe not having
    stopped at a package without module information). *)
Theorem Generate_malformed_manifest_fails g schema st sdk content e :
  (∀ pkg, packages_Load (world st) (OutputDir g) = inr [pkg] →
          is_Some (packages.Module pkg)) →
  modfile_Parse "go.mod" GoMod = inr sdk →
  disk (world st) !! filepath_Join (OutputDir g) "go.mod" = Some content →
  modfile_Parse "go.mod" content = inl e →
  (Generate g schema st).1 = Err ("bootstrap package: parse go.mod: " ++ e).
Proof.
  intros Hprobe Hsdk Hdisk Hparse. apply Generate_bootstrap_fails.
  by apply bootstrapPkg_manifest_error with sdk content.
Qed.

(** X5.  If the embedded [go.mod] does not parse, [Generate] fails
    with [bootstrap package: parse embedded go.mod: ...] on every
    workspace, whether it holds a manifest or not. *)
Theorem Generate_broken_baseline g schema st e :
  (∀ pkg, packages_Load (world st) (OutputDir g) = inr [pkg] →
          is_Some (packages.Module pkg)) →
  modfile_Parse "go.mod" GoMod = inl e →
  (Generate g schema st).1 = Err ("bootstrap package: parse embedded go.mod: " ++ e).
Proof.
  intros Hprobe Hsdk. apply Generate_bootstrap_fails.
  by apply bootstrapPkg_baseline_error.
Qed.

(** X6.  If [format.Source] rejects the joined sections, [Generate]
    returns an error whose text ends with the whole unformatted
    source; no generated file is in the in-memory file system and the
    world is as it was. *)
Theorem Generate_format_error_carries_source g schema st info regen st1 render e :
  bootstrapPkg g (mkState ∅ (world st)) = (Ok (info, regen), st1) →
  renderSections g schema
    (GoTemplateFuncs schema (ModuleName g) (loadedPkg (SourceDir g) st)) info = Ok render →
  format_Source (joinSections render) = inl e →
  Generate g schema st
  = (Err ("error formatting generated code: " ++ e ++ NL ++ "source:" ++ NL
          ++ joinSections render), st1)
  ∧ mfs st1 !! ClientGenFile = None
  ∧ world st1 = world st.
Proof.
  intros Hboot Hrender Hfmt.
  destruct (bootstrapPkg_no_client _ _ _ _ _ Hboot) as [Hnone Hw].
  split_and!; [|done|done].
  apply Generate_post_fails with info regen render; [done|done|].
  unfold postProcess. cbv zeta. by rewrite Hfmt.
Qed.

(** X7.  If [imports.Process] rejects the formatted text,
    [Generate] returns an error that carries the source as it was
    before formatting, not the formatted text; again nothing is
    generated. *)
Theorem Generate_imports_error_carries_source
    g schema st info regen st1 render formatted e :
  bootstrapPkg g (mkState ∅ (world st)) = (Ok (info, regen), st1) →
  renderSections g schema
    (GoTemplateFuncs schema (ModuleName g) (loadedPkg (SourceDir g) st)) info = Ok render →
  format_Source (joinSections render) = inr formatted →
  imports_Process (world st) (filepath_Join (SourceDir g) "dummy.go") formatted = inl e →
  Generate g schema st
  = (Err ("error formatting generated code: " ++ e ++ NL ++ "source:" ++ NL
          ++ joinSections render), st1)
  ∧ mfs st1 !! ClientGenFile = None
  ∧ world st1 = world st.
Proof.
  intros Hboot Hrender Hfmt Himp.
  destruct (bootstrapPkg_no_client _ _ _ _ _ Hboot) as [Hnone Hw].
  split_and!; [|done|done].
  apply Generate_post_fails with info regen render; [done|done|].
  unfold postProcess. cbv zeta. rewrite Hfmt. simpl. by rewrite Himp.
Qed.

(** X8.  After a successful [Generate] the in-memory layer holds
    files under at most five names ([main.go], [go.mod], [go.sum],
    [dagger.gen.go], [.gitattributes]); [go.mod] and [go.sum] are
    among them, [go.sum] with the embedded sums, and the generated
    file is what [imports.Process], called for [dummy.go] in the
    source directory, made of the output of [format.Source] on the
    join of the sections that the templates rendered for this
    schema, the workspace identity and the loaded source package. *)
Theorem Generate_layer_contents g schema st r st' :
  Generate g schema st = (Ok r, st') →
  (∀ name, is_Some (mfs st' !! name) →
     name ∈ [StarterTemplateFile; "go.mod"; "go.sum"; ClientGenFile; ".gitattributes"])
  ∧ mfs st' !! "go.sum" = Some GoSum
  ∧ is_Some (mfs st' !! "go.mod")
  ∧ ∃ info render formatted generated,
      identityOf g st = Ok info
      ∧ renderSections g schema
          (GoTemplateFuncs schema (ModuleName g) (loadedPkg (SourceDir g) st)) info
        = Ok render
      ∧ format_Source (joinSections render) = inr formatted
      ∧ imports_Process (world st) (filepath_Join (SourceDir g) "dummy.go") formatted
        = inr generated
      ∧ mfs st' !! ClientGenFile = Some generated.
Proof.
  intros Hrun.
  apply Generate_Ok in Hrun
    as (info & regen & st1 & render & generated
        & Hboot & Hrender & Hpost & _ & Hfile & Hkeep & _).
  pose proof (bootstrapPkg_confined g (mkState ∅ (world st))) as Hconf.
  assert (identityOf g st = Ok info) as Hid by (unfold identityOf; by rewrite Hboot).
  rewrite Hboot in Hconf. simpl in Hconf.
  apply bootstrapPkg_Ok in Hboot as (_ & _ & body & _ & _ & _ & Hmfs & _).
  simpl in Hmfs. split_and!.
  - intros name Hsome.
    destruct (decide (name = ".gitattributes")) as [->|Hn1]; [in_list|].
    destruct (decide (name = ClientGenFile)) as [->|Hn2]; [in_list|].
    rewrite Hkeep in Hsome by done.
    destruct (decide (name ∈ [StarterTemplateFile; "go.mod"; "go.sum"])) as [Hin|Hout].
    + revert Hin. rewrite !elem_of_cons. tauto.
    + rewrite (Hconf name Hout), lookup_empty in Hsome. by destruct Hsome.
  - rewrite Hkeep, Hmfs by done. apply lookup_insert_eq.
  - rewrite Hkeep, Hmfs by done. rewrite lookup_insert_ne by done.
    rewrite lookup_insert_eq. eauto.
  - unfold postProcess in Hpost. cbv zeta in Hpost.
    destruct (format_Source (joinSections render)) as [e|formatted] eqn:Hfmt; [done|].
    simpl in Hpost.
    destruct (imports_Process _ _ formatted) as [e|out] eqn:Himp; [done|].
    injection Hpost as <-. by exists info, render, formatted, out.
Qed.

(** X9.  Merging the baseline is idempotent: a manifest into which
    the baseline was merged is not changed by merging it again. *)
Theorem addBaseline_idempotent cur baseline :
  oneVersionPerPath baseline = true →
  addBaseline (addBaseline cur baseline) baseline = addBaseline cur baseline.
Proof.
  intros Hone. apply addBaseline_settled. intros b Hb.
  destruct (addBaseline_upsert cur baseline b) as (r & Hr & _ & Hv); [|done|eauto].
  intros a c. by apply oneVersionPerPath_spec.
Qed.

(** X10.  When the existing manifest requires none of the baseline's
    paths (and the baseline lists each path once), the merge
    appends the baseline's requirements after the existing ones, in
    the baseline's order and without the indirect mark, and changes
    nothing else. *)
Theorem addBaseline_disjoint cur baseline :
  NoDup (Path <$> baseline) →
  (∀ b, b ∈ baseline → Path b ∉ Path <$> Require_ cur) →
  Require_ (addBaseline cur baseline)
  = (Require_ cur ++ ((fun b => mkReq (Path b) (Version b) false) <$> baseline))%list
  ∧ Module (addBaseline cur baseline) = Module cur
  ∧ Directives (addBaseline cur baseline) = Directives cur.
Proof.
  intros Hnodup Hdisj. split; [|apply addBaseline_frame].
  revert cur Hdisj. induction baseline as [|b l IH]; intros cur Hdisj.
  - by rewrite app_nil_r.
  - change (addBaseline cur (b :: l))
      with (addBaseline (AddRequire cur (Path b) (Version b)) l).
    rewrite fmap_cons in Hnodup. apply NoDup_cons in Hnodup as [Hb Hl].
    assert (Require_ (AddRequire cur (Path b) (Version b))
            = (Require_ cur ++ [mkReq (Path b) (Version b) false])%list) as Hstep.
    { unfold AddRequire. rewrite addRequireLoop_absent by (apply Hdisj; by left). done. }
    rewrite IH, Hstep; [by rewrite <-app_assoc|done|].
    intros b' Hb'. rewrite Hstep, fmap_app, elem_of_app.
    intros [Hin|Hin].
    + revert Hin. apply Hdisj. by right.
    + apply list_elem_of_singleton in Hin. simpl in Hin.
      apply Hb. rewrite <-Hin. by apply list_elem_of_fmap_2.
Qed.

(** X11.  If no path is required twice in the existing manifest,
    none is after the merge, and the existing lines keep their
    places: the paths of the merged manifest are those of the
    existing one followed by new paths of the baseline. *)
Theorem addBaseline_keeps_places cur baseline :
  NoDup (Path <$> Require_ cur) →
  NoDup (Path <$> Require_ (addBaseline cur baseline))
  ∧ ∃ added, Path <$> Require_ (addBaseline cur baseline)
             = ((Path <$> Require_ cur) ++ added)%list
             ∧ added ⊆ Path <$> baseline.
Proof.
  intros Hnodup. induction baseline as [|x l IH] using rev_ind.
  - split; [done|]. exists []. split; [by rewrite app_nil_r|done].
  - rewrite addBaseline_snoc. destruct IH as (Hnd & added & Hpaths & Hsub).
    destruct (AddRequire_nodup (addBaseline cur l) (Path x) (Version x) Hnd)
      as (Hnd' & added' & Hpaths' & Hsub').
    split; [done|]. exists (added ++ added')%list. split.
    + by rewrite Hpaths', Hpaths, app_assoc.
    + rewrite fmap_app. simpl. intros p [Hp|Hp]%elem_of_app.
      * apply elem_of_app. left. by apply Hsub.
      * apply elem_of_app. right. by apply Hsub'.
Qed.

(** X12.  Of the world, [Generate] observes only whether the starter
    file exists, the contents of [go.mod] and [.gitattributes] at
    the output directory, what [packages.Load] answers for the
    output and source directories, and what [imports.Process]
    answers for [dummy.go] in the source directory: two workspaces
    that agree on these give the same outcome and the same in-memory
    files. *)
Theorem Generate_observes g schema st1 st2 :
  (is_Some (disk (world st1) !! filepath_Join (OutputDir g) StarterTemplateFile)
   ↔ is_Some (disk (world st2) !! filepath_Join (OutputDir g) StarterTemplateFile)) →
  (∀ name, name ∈ ["go.mod"; ".gitattributes"] →
     disk (world st1) !! filepath_Join (OutputDir g) name
     = disk (world st2) !! filepath_Join (OutputDir g) name) →
  (∀ dir, dir ∈ [OutputDir g; SourceDir g] →
     packages_Load (world st1) dir = packages_Load (world st2) dir) →
  (∀ src, imports_Process (world st1) (filepath_Join (SourceDir g) "dummy.go") src
          = imports_Process (world st2) (filepath_Join (SourceDir g) "dummy.go") src) →
  (Generate g schema st1).1 = (Generate g schema st2).1
  ∧ mfs (Generate g schema st1).2 = mfs (Generate g schema st2).2.
Proof.
  intros Hstat Hread Hload Himp.
  assert (observes [filepath_Join (OutputDir g) StarterTemplateFile]
                   [filepath_Join (OutputDir g) "go.mod";
                    filepath_Join (OutputDir g) ".gitattributes"]
                   [OutputDir g; SourceDir g]
                   [filepath_Join (SourceDir g) "dummy.go"] (Generate g schema)) as Hobs.
  { unfold Generate. apply observes_bind; [apply observes_memfs_New|intros _].
    apply observes_bind.
    - apply observes_wrapM. unfold bootstrapPkg. cbv zeta. repeat observes_step.
    - intros [info regen]. unfold InstallGitAttributes. cbv zeta. repeat observes_step.
      apply observes_observe. intros s1 s2 (_ & _ & _ & _ & Hproc).
      unfold postProcess. cbv zeta.
      destruct (wrapFormat _ (format_Source _)) as [formatted|e|msg]; [|done|done].
      simpl. rewrite Hproc; [done|in_list]. }
  assert (∀ st, Generate g schema st = Generate g schema (mkState ∅ (world st))) as Hfresh
    by done.
  rewrite (Hfresh st1), (Hfresh st2).
  destruct (Hobs (mkState ∅ (world st1)) (mkState ∅ (world st2))) as [Hr (Hm & _)];
    [|done].
  split_and!; try done; simpl.
  - intros p ->%list_elem_of_singleton. done.
  - intros p Hp. apply elem_of_cons in Hp as [->|Hp]; [apply Hread; in_list|].
    apply list_elem_of_singleton in Hp as ->. apply Hread; in_list.
  - intros f src ->%list_elem_of_singleton. apply Himp.
Qed.

(** X13.  Whatever the module name, the type name that
    [baseModuleSource] puts into the scaffold consists of ASCII
    letters and digits only. *)
Theorem baseModuleSource_type_name_alnum g :
  ∃ name,
    allBytes isAlnum name = true
    ∧ baseModuleSource g =
        "package main" ++ NL ++ NL ++ "import (" ++ NL
        ++ TAB ++ DQ ++ "context" ++ DQ ++ NL ++ ")" ++ NL ++ NL
        ++ "type " ++ name ++ " struct {}" ++ NL ++ NL
        ++ "func (m *" ++ name
        ++ ") MyFunction(ctx context.Context, stringArg string) ("
        ++ "*Container, error) {" ++ NL
        ++ TAB ++ "return dag.Container().From(" ++ DQ ++ "alpine:latest" ++ DQ
        ++ ").WithExec([]string{" ++ DQ ++ "echo" ++ DQ ++ ", stringArg}).Sync(ctx)" ++ NL
        ++ "}" ++ NL.
Proof.
  exists (strcase.ToCamel (ModuleName g)). split; [apply ToCamel_alnum|done].
Qed.

(** X14.  The module path that [bootstrapPkg] gives a synthesized
    manifest holds no upper-case ASCII letter, space, underscore or
    dot, whatever the module name. *)
Theorem synthesized_module_path_kebab g st info regen st' :
  disk (world st) !! filepath_Join (OutputDir g) "go.mod" = None →
  bootstrapPkg g st = (Ok (info, regen), st') →
  allBytes kebabByte (ModulePath info) = true.
Proof.
  intros Hdisk Hboot.
  apply bootstrapPkg_Ok in Hboot as (sdk & newMod & body & _ & _ & _ & _ & _ & _ & Hman).
  rewrite Hdisk in Hman. destruct Hman as [Hpath _]. rewrite Hpath. apply ToKebab_kebab.
Qed.

(** X15.  On a name made of lower-case letters and hyphens,
    [ToKebab] changes nothing, so [checkOutput] is the fixed prefix
    followed by the name itself. *)
Theorem checkOutput_kebab_name name :
  allBytes lowOrHyphen name = true →
  strcase.ToKebab name = name
  ∧ checkOutput name = "WE ARE RUNNING CHECK " ++ name.
Proof.
  intros Hname.
  assert (strcase.ToKebab name = name) as Hid.
  { unfold strcase.ToKebab, strcase.ToDelimited, strcase.ToScreamingDelimited.
    rewrite (TrimSpace_kebab name Hname). by apply delimitedLoop_kebab_id. }
  split; [done|]. unfold checkOutput. by rewrite Hid.
Qed.

End Further.

(** * The further properties on a concrete workspace *)

Section FurtherExamples.

Import generator Fixture Faulty.

Lemma X2_witness :
  PackageName (mkInfo "main" "example.com/app") = packages.Name mainPkg.
Proof.
  destruct (bootstrapPkg_found_package cfg (start startedDisk) mainPkg) as [_ Hname].
  - vm_compute. reflexivity.
  - apply (Hname _ false (bootstrapPkg cfg (start startedDisk)).2).
    vm_compute. reflexivity.
Defined.

Lemma X4_witness :
  (Generate cfg schema (start malformedDisk)).1
  = Err "bootstrap package: parse go.mod: go.mod: malformed module file".
Proof.
  apply (Generate_malformed_manifest_fails cfg schema (start malformedDisk) baseline
           ("modul example.com/app" ++ NL) "go.mod: malformed module file").
  - intros pkg Hload. vm_compute in Hload. discriminate Hload.
  - vm_compute. reflexivity.
  - vm_compute. reflexivity.
  - vm_compute. reflexivity.
Defined.

Lemma X5_witness :
  (@Generate libs brokenEmbedded templates cfg schema (start userDisk)).1
  = Err "bootstrap package: parse embedded go.mod: go.mod: malformed module file".
Proof.
  apply (@Generate_broken_baseline libs brokenEmbedded templates cfg schema
           (start userDisk) "go.mod: malformed module file").
  - intros pkg Hload. vm_compute in Hload. discriminate Hload.
  - vm_compute. reflexivity.
Defined.

Lemma X6_witness :
  ∃ st1,
    @Generate rejectingFormat embedded templates cfg schema (start emptyDisk)
    = (Err ("error formatting generated code: 3:1: expected declaration, found '}'"
            ++ NL ++ "source:" ++ NL ++ joinSections firstSections), st1).
Proof.
  destruct (@Generate_format_error_carries_source rejectingFormat embedded templates
              cfg schema (start emptyDisk) (mkInfo "main" "my-cool-thing") true
              (@bootstrapPkg rejectingFormat embedded cfg
                 (mkState ∅ (world (start emptyDisk)))).2
              firstSections "3:1: expected declaration, found '}'")
    as (Hrun & _).
  - vm_compute. reflexivity.
  - vm_compute. reflexivity.
  - vm_compute. reflexivity.
  - eexists. exact Hrun.
Defined.

Lemma X7_witness :
  ∃ st1,
    @Generate markingFormat embedded templates cfg schema rejectingImports
    = (Err ("error formatting generated code: "
            ++ "/work/dummy.go:3:1: expected declaration, found '}'"
            ++ NL ++ "source:" ++ NL ++ joinSections firstSections), st1).
Proof.
  destruct (@Generate_imports_error_carries_source markingFormat embedded templates
              cfg schema rejectingImports (mkInfo "main" "my-cool-thing") true
              (@bootstrapPkg markingFormat embedded cfg
                 (mkState ∅ (world rejectingImports))).2
              firstSections ("// formatted" ++ NL ++ joinSections firstSections)
              "/work/dummy.go:3:1: expected declaration, found '}'")
    as (Hrun & _).
  - vm_compute. reflexivity.
  - vm_compute. reflexivity.
  - vm_compute. reflexivity.
  - vm_compute. reflexivity.
  - eexists. exact Hrun.
Defined.

Lemma X8_witness :
  mfs (Generate cfg schema (start emptyDisk)).2 !! "go.sum" = Some GoSum.
Proof.
  destruct (Generate_layer_contents cfg schema (start emptyDisk)
              (mkGenerated [mfs (Generate cfg schema (start emptyDisk)).2; QueryBuilder]
                           [["go"; "mod"; "tidy"]] true)
              (Generate cfg schema (start emptyDisk)).2)
    as (_ & Hsum & _).
  - vm_compute. reflexivity.
  - exact Hsum.
Defined.

Lemma X9_witness :
  addBaseline (addBaseline userMod (modfile.Require_ baseline)) (modfile.Require_ baseline)
  = addBaseline userMod (modfile.Require_ baseline).
Proof.
  apply (addBaseline_idempotent userMod (modfile.Require_ baseline)).
  vm_compute. reflexivity.
Defined.

Lemma X10_witness :
  modfile.Require_ (addBaseline anonMod (modfile.Require_ baseline))
  = [modfile.mkReq "github.com/stretchr/testify" "v1.8.4" false;
     modfile.mkReq "github.com/Khan/genqlient" "v0.6.0" false;
     modfile.mkReq "github.com/99designs/gqlgen" "v0.17.31" false].
Proof.
  destruct (addBaseline_disjoint anonMod (modfile.Require_ baseline)) as [Hreqs _].
  - apply (bool_decide_unpack _). vm_compute. exact I.
  - intros b Hb. apply (bool_decide_unpack _).
    apply elem_of_cons in Hb as [->|Hb]; [vm_compute; exact I|].
    apply list_elem_of_singleton in Hb as ->. vm_compute. exact I.
  - exact Hreqs.
Defined.

Lemma X11_witness :
  NoDup (modfile.Path <$> modfile.Require_ (addBaseline userMod (modfile.Require_ baseline))).
Proof.
  destruct (addBaseline_keeps_places userMod (modfile.Require_ baseline)) as [Hnodup _].
  - apply (bool_decide_unpack _). vm_compute. exact I.
  - exact Hnodup.
Defined.

Lemma X12_witness :
  (Generate cfg schema (start userDisk)).1
  = (Generate cfg schema (start userDiskWithReadme)).1.
Proof.
  destruct (Generate_observes cfg schema (start userDisk) (start userDiskWithReadme))
    as [Hsame _].
  - split; intros [data Hdata]; vm_compute in Hdata; discriminate Hdata.
  - intros name Hin.
    apply elem_of_cons in Hin as [->|Hin]; [vm_compute; reflexivity|].
    apply list_elem_of_singleton in Hin as ->. vm_compute. reflexivity.
  - intros dir Hin.
    apply elem_of_cons in Hin as [->|Hin]; [vm_compute; reflexivity|].
    apply list_elem_of_singleton in Hin as ->. vm_compute. reflexivity.
  - intros src. reflexivity.
  - exact Hsame.
Defined.

Lemma X14_witness :
  allBytes kebabByte "my-cool-thing" = true.
Proof.
  apply (synthesized_module_path_kebab cfg (start emptyDisk)
           (mkInfo "main" "my-cool-thing") true (bootstrapPkg cfg (start emptyDisk)).2).
  - vm_compute. reflexivity.
  - vm_compute. reflexivity.
Defined.

Lemma X15_witness :
  checkOutput "cool-static-check" = "WE ARE RUNNING CHECK cool-static-check".
Proof.
  destruct (checkOutput_kebab_name "cool-static-check") as [_ Hout].
  - vm_compute. reflexivity.
  - exact Hout.
Defined.

End FurtherExamples.
